(** * MyTradingBot: the roulette predictors of [roulette.py] and [testRou.py]

    A shallow embedding of the two predictor scripts and the proofs of the
    properties their specification states.

    - Python numbers (the [int] and [float] counts held by the [Counter]
      tables) are kept abstract behind the interface [Number]; it is
      instantiated with IEEE binary64 ([float64], what CPython computes) and
      with exact rationals ([exact]: the [int] counts of [roulette.py],
      and arithmetic without rounding).
    - A Python [dict] / [Counter] / [defaultdict] is an insertion-ordered
      association list ([dict]): [most_common] breaks ties by insertion
      order, so order is part of the value.
    - Methods are computations in a state-and-exception monad over the
      predictor object: an exception leaves the mutations done so far. *)

From Stdlib Require Import ZArith List Bool Lia Floats QArith Qcanon Sorted.
From stdpp Require Import base decidable list strings.

Import ListNotations.
Local Open Scope Z_scope.

(** ** Python numbers *)

(** The arithmetic the scripts use on table weights. [wdiv] is true
    division, [None] standing for [ZeroDivisionError]; [wlt] is [<];
    [prune_eps] is the literal [1e-6]. *)
Class Number (W : Type) : Type := {
  of_int : Z -> W;
  wadd : W -> W -> W;
  wmul : W -> W -> W;
  wdiv : W -> W -> option W;
  wlt : W -> W -> bool;
  prune_eps : W
}.

(** ** Exceptions and the method monad *)

Inductive exn : Type :=
| ValueError          (* list.index(x): x not in list *)
| IndexError          (* list index out of range *)
| ZeroDivisionError.

Inductive result (A : Type) : Type :=
| Ok (a : A)
| Raise (e : exn).
Arguments Ok {A} a.
Arguments Raise {A} e.

Definition result_bind {A B} (r : result A) (k : A -> result B) : result B :=
  match r with
  | Ok a => k a
  | Raise e => Raise e
  end.

(** A method of an object of type [S]: it returns or raises, and hands back
    the object as mutated up to that point. *)
Definition M (S A : Type) : Type := S -> result A * S.

Definition ret {S A} (a : A) : M S A := fun self => (Ok a, self).

Definition bind {S A B} (m : M S A) (k : A -> M S B) : M S B :=
  fun self =>
    match m self with
    | (Ok a, self') => k a self'
    | (Raise e, self') => (Raise e, self')
    end.

Definition gets {S A} (f : S -> A) : M S A := fun self => (Ok (f self), self).

Definition modify {S} (f : S -> S) : M S unit := fun self => (Ok tt, f self).

Definition lift {S A} (r : result A) : M S A := fun self => (r, self).

(** The object after the call, and what the call returned or raised. *)
Definition state_after {S A} (m : M S A) (self : S) : S := snd (m self).

Definition returned {S A} (m : M S A) (self : S) : result A := fst (m self).

(** [hoare P m Q E]: run from an object satisfying [P], the method [m]
    either returns [a] and leaves an object satisfying [Q a], or raises and
    leaves one satisfying [E]. The method is a function, so it always does
    one of the two. *)
Definition hoare {S A} (P : S -> Prop) (m : M S A)
    (Q : A -> S -> Prop) (E : S -> Prop) : Prop :=
  forall self, P self ->
    match m self with
    | (Ok a, self') => Q a self'
    | (Raise _, self') => E self'
    end.

(** A method that keeps an invariant whether it returns or raises. *)
Definition preserves {S A} (I : S -> Prop) (m : M S A) : Prop :=
  hoare I m (fun _ => I) I.

(** A loop whose body may raise and touches no state. *)
Fixpoint for_each {A B} (f : A -> result B) (l : list A) : result (list B) :=
  match l with
  | [] => Ok []
  | a :: l' =>
      result_bind (f a) (fun b =>
      result_bind (for_each f l') (fun bs => Ok (b :: bs)))
  end.

Declare Scope py_scope.
Delimit Scope py_scope with py.
Notation "x <- m ;; k" := (bind m (fun x => k))
  (at level 100, m at next level, right associativity) : py_scope.
Notation "m ;; k" := (bind m (fun _ => k))
  (at level 100, right associativity) : py_scope.

(** [not l], for a list or a dict. *)
Definition list_is_empty {A} (l : list A) : bool :=
  match l with [] => true | _ => false end.

(** ** Insertion-ordered dictionaries *)

Section Dict.
Context {K V : Type} `{EqDecision K}.

Definition dict : Type := list (K * V).

(** [k in d] *)
Fixpoint dict_lookup (k : K) (d : dict) : option V :=
  match d with
  | [] => None
  | (k', v) :: d' => if decide (k' = k) then Some v else dict_lookup k d'
  end.

Definition dict_mem (k : K) (d : dict) : bool :=
  match dict_lookup k d with Some _ => true | None => false end.

(** [d[k] = v]: an existing key keeps its place, a new one goes last. *)
Fixpoint dict_set (k : K) (v : V) (d : dict) : dict :=
  match d with
  | [] => [(k, v)]
  | (k', v') :: d' =>
      if decide (k' = k) then (k, v) :: d' else (k', v') :: dict_set k v d'
  end.

(** [del d[k]] *)
Fixpoint dict_del (k : K) (d : dict) : dict :=
  match d with
  | [] => []
  | (k', v') :: d' =>
      if decide (k' = k) then dict_del k d' else (k', v') :: dict_del k d'
  end.

(** [list(d)] *)
Definition dict_keys (d : dict) : list K := map fst d.

(** [d.values()] *)
Definition dict_values (d : dict) : list V := map snd d.

(** No key twice: what every Python dict satisfies. *)
Definition dict_wf (d : dict) : Prop := NoDup (dict_keys d).
End Dict.
Arguments dict : clear implicits.

(** ** [collections.Counter] *)

Section Counter.
Context {W : Type} `{Number W} {K : Type} `{EqDecision K}.

Definition Counter : Type := dict K W.

(** [Counter()] *)
Definition counter_new : Counter := [].

(** [c[k]]: a missing key counts [0] and is not inserted. *)
Definition counter_get (k : K) (c : Counter) : W :=
  match dict_lookup k c with
  | Some w => w
  | None => of_int 0
  end.

(** [c[k] += 1] *)
Definition counter_incr (k : K) (c : Counter) : Counter :=
  dict_set k (wadd (counter_get k c) (of_int 1)) c.

(** [sum(c.values())] *)
Definition counter_total (c : Counter) : W :=
  fold_left wadd (dict_values c) (of_int 0).

(** Stable insertion into a list sorted by decreasing count: the new
    entry comes from earlier in the dict than the ones already placed, so
    it goes before every entry that is not strictly larger. *)
Fixpoint insert_by_count (x : K * W) (l : list (K * W)) : list (K * W) :=
  match l with
  | [] => [x]
  | y :: l' =>
      if wlt (snd x) (snd y) then y :: insert_by_count x l' else x :: y :: l'
  end.

Definition sort_by_count (l : list (K * W)) : list (K * W) :=
  fold_right insert_by_count [] l.

(** [c.most_common(n)]: the [n] largest counts, largest first, equal
    counts in insertion order; nothing when [n <= 0]. *)
Definition most_common (n : Z) (c : Counter) : list (K * W) :=
  firstn (Z.to_nat n) (sort_by_count c).

(** What one decay step leaves of a weight [w]: the product, unless it is
    below [1e-6]. *)
Definition decay_weight (decay w : W) : option W :=
  if wlt (wmul w decay) prune_eps then None else Some (wmul w decay).

(** [c'] is [c] after one decay step: what is left was multiplied by the
    decay factor and is not below [1e-6], and what is not below [1e-6]
    after the multiplication is left. *)
Definition decayed_from (decay : W) (c c' : Counter) : Prop :=
  (forall k w', dict_lookup k c' = Some w' ->
     exists w, dict_lookup k c = Some w /\ w' = wmul w decay /\
               wlt w' prune_eps = false) /\
  (forall k w, dict_lookup k c = Some w ->
     wlt (wmul w decay) prune_eps = false ->
     dict_lookup k c' = Some (wmul w decay)).

(** The decay loops of [_apply_decay]:
<<
    for k in list(c):
        c[k] *= decay
        if c[k] < 1e-6:
            del c[k]
>>  *)
Definition decay_entry (decay : W) (k : K) (c : Counter) : Counter :=
  let c1 := dict_set k (wmul (counter_get k c) decay) c in
  if wlt (counter_get k c1) prune_eps then dict_del k c1 else c1.

Definition decay_counter (decay : W) (c : Counter) : Counter :=
  fold_left (fun c k => decay_entry decay k c) (dict_keys c) c.
End Counter.
Arguments Counter : clear implicits.

(** ** The wheel ([wheel_sequence] and the functions on it, the same in
    both scripts) *)

Definition wheel_sequence : list Z :=
  [0; 32; 15; 19; 4; 21; 2; 25; 17; 34;
   6; 27; 13; 36; 11; 30; 8; 23; 10; 5;
   24; 16; 33; 1; 20; 14; 31; 9; 22; 18;
   29; 7; 28; 12; 35; 3; 26].

(** [len(l)] *)
Definition len {A} (l : list A) : Z := Z.of_nat (length l).

(** [l.index(x)], raising [ValueError] when [x] is not in [l]. *)
Fixpoint list_index (x : Z) (l : list Z) : result Z :=
  match l with
  | [] => Raise ValueError
  | y :: l' =>
      if decide (y = x) then Ok 0
      else result_bind (list_index x l') (fun i => Ok (i + 1))
  end.

(** [l[i]] for a Python index, negative ones counting from the end. *)
Definition list_getitem {A} (l : list A) (i : Z) : result A :=
  let j := if i <? 0 then len l + i else i in
  if j <? 0 then Raise IndexError
  else match nth_error l (Z.to_nat j) with
       | Some a => Ok a
       | None => Raise IndexError
       end.

Definition index_on_wheel (number : Z) : result Z :=
  list_index number wheel_sequence.

Definition distance_clockwise (from_num to_num : Z) : result Z :=
  result_bind (index_on_wheel from_num) (fun from_idx =>
  result_bind (index_on_wheel to_num) (fun to_idx =>
  Ok ((to_idx - from_idx) mod len wheel_sequence))).

Definition distance_anticlockwise (from_num to_num : Z) : result Z :=
  result_bind (index_on_wheel from_num) (fun from_idx =>
  result_bind (index_on_wheel to_num) (fun to_idx =>
  Ok ((from_idx - to_idx) mod len wheel_sequence))).

Inductive Direction : Type := clockwise | anticlockwise.

Global Instance Direction_eq_dec : EqDecision Direction.
Proof. solve_decision. Defined.

(** Odd spins are clockwise, even ones anticlockwise. *)
Definition get_spin_direction (spin_number : Z) : Direction :=
  if spin_number mod 2 =? 1 then clockwise else anticlockwise.

(** The slot a distance leads to from [last_index] (the loop body shared by
    both [predict_next_top_n]). *)
Definition predicted_index (direction : Direction) (last_index dist : Z) : Z :=
  match direction with
  | clockwise => (last_index + dist) mod len wheel_sequence
  | anticlockwise => (last_index - dist) mod len wheel_sequence
  end.

(** [count / total], as every probability of a report is computed. *)
Definition probability {W} `{Number W} (count total : W) : result W :=
  match wdiv count total with
  | Some p => Ok p
  | None => Raise ZeroDivisionError
  end.

(** One round of the loop both [predict_next_top_n] run over the most
    common distances: the probability of the distance and the number it
    leads to. *)
Definition candidate {W} `{Number W} (direction : Direction) (last_index : Z)
    (total : W) (entry : Z * W) : result (Z * Z * W) :=
  let '(dist, count) := entry in
  result_bind (probability count total) (fun prob =>
  result_bind
    (list_getitem wheel_sequence (predicted_index direction last_index dist))
    (fun predicted_number => Ok (predicted_number, dist, prob))).

(** A row [(number, dist, prob)] of a distance-based list, for the slot
    [last_index] of the last number: the slot looked up is
    [(last_index + dist) mod 37] clockwise and [(last_index - dist) mod 37]
    anticlockwise, a slot of the wheel, and [number] is the wheel position
    there. *)
Definition row_on_wheel {W : Type} (direction : Direction) (last_index : Z)
    (row : Z * Z * W) : Prop :=
  let '(number, dist, _) := row in
  let slot :=
    match direction with
    | clockwise => (last_index + dist) mod 37
    | anticlockwise => (last_index - dist) mod 37
    end in
  0 <= slot < 37 /\
  list_getitem wheel_sequence slot = Ok number /\
  0 <= number <= 36.

(** ** [roulette.py]: distance counts only *)

Module roulette.
Section Predictor.
Context {W : Type} `{Number W}.

Record RoulettePredictor : Type := {
spins : list Z;
distance_freq_clockwise : Counter W Z;
distance_freq_anticlockwise : Counter W Z
}.

Definition __init__ : RoulettePredictor :=
{| spins := [];
   distance_freq_clockwise := [];
   distance_freq_anticlockwise := [] |}.

(** [self.distance_freq[direction]] *)
Definition distance_freq (self : RoulettePredictor) (direction : Direction)
: Counter W Z :=
match direction with
| clockwise => distance_freq_clockwise self
| anticlockwise => distance_freq_anticlockwise self
end.

Definition set_spins (l : list Z) (self : RoulettePredictor) :=
{| spins := l;
   distance_freq_clockwise := distance_freq_clockwise self;
   distance_freq_anticlockwise := distance_freq_anticlockwise self |}.

Definition set_distance_freq (direction : Direction) (c : Counter W Z)
  (self : RoulettePredictor) :=
match direction with
| clockwise =>
    {| spins := spins self;
       distance_freq_clockwise := c;
       distance_freq_anticlockwise := distance_freq_anticlockwise self |}
| anticlockwise =>
    {| spins := spins self;
       distance_freq_clockwise := distance_freq_clockwise self;
       distance_freq_anticlockwise := c |}
end.

Definition add_spin (number : Z) : M RoulettePredictor unit :=
(spin_number <- gets (fun self => len (spins self) + 1) ;;
 modify (fun self => set_spins (spins self ++ [number]) self) ;;
 n <- gets (fun self => len (spins self)) ;;
 if 1 <? n then
   prev_num <- (fun self => lift (list_getitem (spins self) (-2)) self) ;;
   let direction := get_spin_direction spin_number in
   dist <- lift (match direction with
                 | clockwise => distance_clockwise prev_num number
                 | anticlockwise => distance_anticlockwise prev_num number
                 end) ;;
   modify (fun self =>
     set_distance_freq direction
       (counter_incr dist (distance_freq self direction)) self)
 else ret tt)%py.

(** What [predict_next_top_n] returns, before it is laid out as text:
  one of the two fixed messages, or the header fields and the rows
  [(predicted_number, dist, prob)]. *)
Inductive Prediction : Type :=
| NoSpins
| NoDistanceData (direction : Direction)
| Report (spin_number : Z) (direction : Direction) (n : Z)
       (results : list (Z * Z * W)).

Definition predict_next_top_n (n : Z) : M RoulettePredictor Prediction :=
(spin_number <- gets (fun self => len (spins self) + 1) ;;
 let direction := get_spin_direction spin_number in
 no_spins <- gets (fun self => list_is_empty (spins self)) ;;
 if (no_spins : bool) then ret NoSpins else
 freq <- gets (fun self => distance_freq self direction) ;;
 if list_is_empty freq then ret (NoDistanceData direction) else
 let total_counts := counter_total freq in
 last_number <- (fun self => lift (list_getitem (spins self) (-1)) self) ;;
 last_index <- lift (index_on_wheel last_number) ;;
 freq <- gets (fun self => distance_freq self direction) ;;
 let common_distances := most_common n freq in
 results <- lift (for_each (candidate direction last_index total_counts)
                           common_distances) ;;
 ret (Report spin_number direction n results))%py.

(** A run of [add_spin] calls from left to right. *)
Definition add_spins (l : list Z) (self : RoulettePredictor)
: RoulettePredictor :=
fold_left (fun self number => state_after (add_spin number) self) l self.
End Predictor.
Arguments RoulettePredictor : clear implicits.
Arguments Prediction : clear implicits.
End roulette.

(** ** [testRou.py]: decayed counts over distance, number, color, zone and
    dealer *)

Inductive Color : Type := green | red | black | unknown.

Global Instance Color_eq_dec : EqDecision Color.
Proof. solve_decision. Defined.

(** [x in s] for a set literal. *)
Definition member (x : Z) (s : list Z) : bool := existsb (Z.eqb x) s.

Definition red_numbers : list Z :=
  [1; 3; 5; 7; 9; 12; 14; 16; 18; 19; 21; 23; 25; 27; 30; 32; 34; 36].

Definition black_numbers : list Z :=
  [2; 4; 6; 8; 10; 11; 13; 15; 17; 20; 22; 24; 26; 28; 29; 31; 33; 35].

Definition get_color (number : Z) : Color :=
  if number =? 0 then green
  else if member number red_numbers then red
  else if member number black_numbers then black
  else unknown.

Definition wheel_zones : list (list Z) :=
  [ [0; 32; 15; 19; 4];
    [21; 2; 25; 17; 34];
    [6; 27; 13; 36; 11];
    [30; 8; 23; 10; 5];
    [24; 16; 33; 1; 20];
    [14; 31; 9; 22; 18];
    [29; 7; 28; 12; 35];
    [3; 26] ].

(** [for idx, zone in enumerate(zones, idx): if number in zone: return idx] *)
Fixpoint find_zone_from (idx : Z) (zones : list (list Z)) (number : Z)
  : option Z :=
  match zones with
  | [] => None
  | zone :: zones' =>
      if member number zone then Some idx
      else find_zone_from (idx + 1) zones' number
  end.

Definition find_zone (number : Z) : option Z :=
  find_zone_from 1 wheel_zones number.

(** [if zone:] for [zone] an index or [None]. *)
Definition zone_truthy (zone : option Z) : option Z :=
  match zone with
  | Some z => if z =? 0 then None else Some z
  | None => None
  end.

(** [if dealer:] for [dealer] a string or [None]. *)
Definition dealer_truthy (dealer : option string) : option string :=
  match dealer with
  | Some s => if decide (s = EmptyString) then None else Some s
  | None => None
  end.

(** [q.append(x)] on a [deque(maxlen=maxlen)]: the oldest item is dropped
    when the bound is exceeded. *)
Definition deque_append {A} (maxlen : nat) (x : A) (q : list A) : list A :=
  let q' := q ++ [x] in
  skipn (length q' - maxlen) q'.

(** [dd[k]] on a [defaultdict]: a missing key is inserted with the value
    the factory makes, which is returned. *)
Definition defaultdict_getitem {K V : Type} `{EqDecision K}
    (default_factory : V) (k : K) (dd : dict K V) : V * dict K V :=
  match dict_lookup k dd with
  | Some v => (v, dd)
  | None => (default_factory, dict_set k default_factory dd)
  end.

Module testRou.
Section Predictor.
Context {W : Type} `{Number W}.

Record RoulettePredictor : Type := {
spins : list (Z * option string);
max_history : nat;
decay : W;
distance_freq_clockwise : Counter W Z;
distance_freq_anticlockwise : Counter W Z;
number_weights : Counter W Z;
color_weights : Counter W Color;
zone_weights : Counter W Z;
dealer_zone_weights : dict string (Counter W Z);
spin_history : list (Z * option string)
}.

Definition __init__ (max_history : nat) (decay : W) : RoulettePredictor :=
{| spins := [];
   max_history := max_history;
   decay := decay;
   distance_freq_clockwise := [];
   distance_freq_anticlockwise := [];
   number_weights := [];
   color_weights := [];
   zone_weights := [];
   dealer_zone_weights := [];
   spin_history := [] |}.

(** [self.distance_freq[direction]] *)
Definition distance_freq (self : RoulettePredictor) (direction : Direction)
: Counter W Z :=
match direction with
| clockwise => distance_freq_clockwise self
| anticlockwise => distance_freq_anticlockwise self
end.

(** Field updates. *)
Definition set_spins (l : list (Z * option string)) (self : RoulettePredictor) :=
{| spins := l;
   max_history := max_history self;
   decay := decay self;
   distance_freq_clockwise := distance_freq_clockwise self;
   distance_freq_anticlockwise := distance_freq_anticlockwise self;
   number_weights := number_weights self;
   color_weights := color_weights self;
   zone_weights := zone_weights self;
   dealer_zone_weights := dealer_zone_weights self;
   spin_history := spin_history self |}.

Definition set_spin_history (q : list (Z * option string)) (self : RoulettePredictor) :=
{| spins := spins self;
   max_history := max_history self;
   decay := decay self;
   distance_freq_clockwise := distance_freq_clockwise self;
   distance_freq_anticlockwise := distance_freq_anticlockwise self;
   number_weights := number_weights self;
   color_weights := color_weights self;
   zone_weights := zone_weights self;
   dealer_zone_weights := dealer_zone_weights self;
   spin_history := q |}.

Definition set_distance_freq (direction : Direction) (c : Counter W Z)
  (self : RoulettePredictor) :=
{| spins := spins self;
   max_history := max_history self;
   decay := decay self;
   distance_freq_clockwise :=
     match direction with
     | clockwise => c
     | anticlockwise => distance_freq_clockwise self
     end;
   distance_freq_anticlockwise :=
     match direction with
     | clockwise => distance_freq_anticlockwise self
     | anticlockwise => c
     end;
   number_weights := number_weights self;
   color_weights := color_weights self;
   zone_weights := zone_weights self;
   dealer_zone_weights := dealer_zone_weights self;
   spin_history := spin_history self |}.

Definition set_number_weights (c : Counter W Z) (self : RoulettePredictor) :=
{| spins := spins self;
   max_history := max_history self;
   decay := decay self;
   distance_freq_clockwise := distance_freq_clockwise self;
   distance_freq_anticlockwise := distance_freq_anticlockwise self;
   number_weights := c;
   color_weights := color_weights self;
   zone_weights := zone_weights self;
   dealer_zone_weights := dealer_zone_weights self;
   spin_history := spin_history self |}.

Definition set_color_weights (c : Counter W Color) (self : RoulettePredictor) :=
{| spins := spins self;
   max_history := max_history self;
   decay := decay self;
   distance_freq_clockwise := distance_freq_clockwise self;
   distance_freq_anticlockwise := distance_freq_anticlockwise self;
   number_weights := number_weights self;
   color_weights := c;
   zone_weights := zone_weights self;
   dealer_zone_weights := dealer_zone_weights self;
   spin_history := spin_history self |}.

Definition set_zone_weights (c : Counter W Z) (self : RoulettePredictor) :=
{| spins := spins self;
   max_history := max_history self;
   decay := decay self;
   distance_freq_clockwise := distance_freq_clockwise self;
   distance_freq_anticlockwise := distance_freq_anticlockwise self;
   number_weights := number_weights self;
   color_weights := color_weights self;
   zone_weights := c;
   dealer_zone_weights := dealer_zone_weights self;
   spin_history := spin_history self |}.

Definition set_dealer_zone_weights (d : dict string (Counter W Z))
  (self : RoulettePredictor) :=
{| spins := spins self;
   max_history := max_history self;
   decay := decay self;
   distance_freq_clockwise := distance_freq_clockwise self;
   distance_freq_anticlockwise := distance_freq_anticlockwise self;
   number_weights := number_weights self;
   color_weights := color_weights self;
   zone_weights := zone_weights self;
   dealer_zone_weights := d;
   spin_history := spin_history self |}.

(** [self.dealer_zone_weights[dealer]]: the read that inserts. *)
Definition dealer_zone_weights_getitem (dealer : string)
: M RoulettePredictor (Counter W Z) :=
fun self =>
  let '(c, dd) :=
    defaultdict_getitem counter_new dealer (dealer_zone_weights self) in
  (Ok c, set_dealer_zone_weights dd self).

(** One round of the last loop of [_apply_decay]: the dealer's counter is
  decayed in place, and the dealer is dropped when nothing is left. *)
Definition decay_dealer (decay : W) (dealer : string)
  (dd : dict string (Counter W Z)) : dict string (Counter W Z) :=
let '(c, dd1) := defaultdict_getitem counter_new dealer dd in
let c' := decay_counter decay c in
let dd2 := dict_set dealer c' dd1 in
if list_is_empty c' then dict_del dealer dd2 else dd2.

(** What the round leaves of a dealer's counter [c]. *)
Definition decay_table (decay : W) (c : Counter W Z) : option (Counter W Z) :=
let c' := decay_counter decay c in
if list_is_empty c' then None else Some c'.

Definition decay_dealers (decay : W) (dd : dict string (Counter W Z))
: dict string (Counter W Z) :=
fold_left (fun dd dealer => decay_dealer decay dealer dd) (dict_keys dd) dd.

Definition _apply_decay : M RoulettePredictor unit :=
(modify (fun self =>
   set_distance_freq clockwise
     (decay_counter (decay self) (distance_freq self clockwise)) self) ;;
 modify (fun self =>
   set_distance_freq anticlockwise
     (decay_counter (decay self) (distance_freq self anticlockwise)) self) ;;
 modify (fun self =>
   set_number_weights (decay_counter (decay self) (number_weights self)) self) ;;
 modify (fun self =>
   set_color_weights (decay_counter (decay self) (color_weights self)) self) ;;
 modify (fun self =>
   set_zone_weights (decay_counter (decay self) (zone_weights self)) self) ;;
 modify (fun self =>
   set_dealer_zone_weights
     (decay_dealers (decay self) (dealer_zone_weights self)) self))%py.

Definition add_spin (number : Z) (dealer : option string)
: M RoulettePredictor unit :=
(_apply_decay ;;
 spin_number <- gets (fun self => len (spins self) + 1) ;;
 modify (fun self => set_spins (spins self ++ [(number, dealer)]) self) ;;
 modify (fun self =>
   set_spin_history
     (deque_append (max_history self) (number, dealer) (spin_history self))
     self) ;;
 modify (fun self =>
   set_number_weights (counter_incr number (number_weights self)) self) ;;
 let color := get_color number in
 modify (fun self =>
   set_color_weights (counter_incr color (color_weights self)) self) ;;
 (match zone_truthy (find_zone number) with
  | Some zone =>
      modify (fun self =>
        set_zone_weights (counter_incr zone (zone_weights self)) self) ;;
      match dealer_truthy dealer with
      | Some name =>
          c <- dealer_zone_weights_getitem name ;;
          modify (fun self =>
            set_dealer_zone_weights
              (dict_set name (counter_incr zone c) (dealer_zone_weights self))
              self)
      | None => ret tt
      end
  | None => ret tt
  end) ;;
 n <- gets (fun self => len (spins self)) ;;
 if 1 <? n then
   prev <- (fun self => lift (list_getitem (spins self) (-2)) self) ;;
   let prev_num := fst prev in
   let direction := get_spin_direction spin_number in
   dist <- lift (match direction with
                 | clockwise => distance_clockwise prev_num number
                 | anticlockwise => distance_anticlockwise prev_num number
                 end) ;;
   modify (fun self =>
     set_distance_freq direction
       (counter_incr dist (distance_freq self direction)) self)
 else ret tt)%py.

(** The dealer table [add_spin] leaves: the decayed one, with the zone of
  the spin counted for the dealer of the spin. *)
Definition dealers_after (number : Z) (dealer : option string)
  (dd : dict string (Counter W Z)) : dict string (Counter W Z) :=
match zone_truthy (find_zone number), dealer_truthy dealer with
| Some zone, Some name =>
    let '(c, dd') := defaultdict_getitem counter_new name dd in
    dict_set name (counter_incr zone c) dd'
| _, _ => dd
end.

(** What a round of [add_spin] on [self0] has settled in [self] before
  the distance is looked up, and so also when that raises. *)
Definition recorded (self0 : RoulettePredictor) (number : Z)
  (dealer : option string) (self : RoulettePredictor) : Prop :=
decay self = decay self0 /\
max_history self = max_history self0 /\
spins self = spins self0 ++ [(number, dealer)] /\
spin_history self =
  deque_append (max_history self0) (number, dealer) (spin_history self0) /\
number_weights self =
  counter_incr number (decay_counter (decay self0) (number_weights self0)) /\
color_weights self =
  counter_incr (get_color number)
    (decay_counter (decay self0) (color_weights self0)) /\
dealer_zone_weights self =
  dealers_after number dealer
    (decay_dealers (decay self0) (dealer_zone_weights self0)).

(** The report [predict_next_top_n] lays out as text: the header fields,
  then one list per section, each row with the probability printed for
  it. [dealer_zones] is the last section, present when a dealer is
  named; no row there prints as "No data for this dealer yet.". *)
Record PredictionReport : Type := {
report_spin_number : Z;
report_direction : Direction;
dist_predictions : list (Z * Z * W);
hot_numbers : list (Z * W * W);
hot_colors : list (Color * W);
hot_zones : list (Z * W * W);
dealer_zones : option (string * list (Z * W * W))
}.

Inductive Prediction : Type :=
| NoSpins
| NoDistanceData (direction : Direction)
| Report (r : PredictionReport).

(** The rows [(key, count, count / total)] of a ranked section. *)
Definition with_probability {K} (total : W) (rows : list (K * W))
: result (list (K * W * W)) :=
for_each (fun '(k, count) =>
  result_bind (probability count total) (fun prob => Ok (k, count, prob)))
  rows.

Definition predict_next_top_n (n : Z) (dealer : option string)
: M RoulettePredictor Prediction :=
(spin_number <- gets (fun self => len (spins self) + 1) ;;
 let direction := get_spin_direction spin_number in
 no_spins <- gets (fun self => list_is_empty (spins self)) ;;
 if (no_spins : bool) then ret NoSpins else
 freq <- gets (fun self => distance_freq self direction) ;;
 if list_is_empty freq then ret (NoDistanceData direction) else
 let total_dist_counts := counter_total freq in
 last <- (fun self => lift (list_getitem (spins self) (-1)) self) ;;
 let last_number := fst last in
 last_index <- lift (index_on_wheel last_number) ;;
 freq <- gets (fun self => distance_freq self direction) ;;
 let common_distances := most_common n freq in
 dist_predictions <-
   lift (for_each (candidate direction last_index total_dist_counts)
                  common_distances) ;;
 numbers <- gets number_weights ;;
 let hot_numbers_total := counter_total numbers in
 let hot_numbers := most_common 10 numbers in
 colors <- gets color_weights ;;
 let total_colors := counter_total colors in
 hot_colors <- lift (for_each (fun '(color, count) =>
     result_bind (probability count total_colors) (fun prob =>
     Ok (color, prob))) colors) ;;
 zones <- gets zone_weights ;;
 let total_zones := counter_total zones in
 let hot_zones := most_common 5 zones in
 known <- gets (fun self =>
   match dealer_truthy dealer with
   | Some name => dict_mem name (dealer_zone_weights self)
   | None => false
   end) ;;
 dealer_zone_info <-
   (match dealer_truthy dealer with
    | Some name =>
        if (known : bool) then
          c <- dealer_zone_weights_getitem name ;;
          let dealer_total := counter_total c in
          c <- dealer_zone_weights_getitem name ;;
          ret (most_common 5 c)
        else ret []
    | None => ret []
    end) ;;
 hot_numbers <- lift (with_probability hot_numbers_total hot_numbers) ;;
 hot_zones <- lift (with_probability total_zones hot_zones) ;;
 dealer_zones <-
   (match dealer with
    | Some name =>
        rows <- lift (with_probability
                        (fold_left wadd (map snd dealer_zone_info) (of_int 0))
                        dealer_zone_info) ;;
        ret (Some (name, rows))
    | None => ret None
    end) ;;
 ret (Report {| report_spin_number := spin_number;
                report_direction := direction;
                dist_predictions := dist_predictions;
                hot_numbers := hot_numbers;
                hot_colors := hot_colors;
                hot_zones := hot_zones;
                dealer_zones := dealer_zones |}))%py.

(** The predictors a session can reach: a fresh one, then any calls of the
  two methods (a call that raises leaves its mutations behind). *)
Inductive reachable : RoulettePredictor -> Prop :=
| reachable_init max_history decay :
  reachable (__init__ max_history decay)
| reachable_add_spin self number dealer :
  reachable self -> reachable (state_after (add_spin number dealer) self)
| reachable_predict self n dealer :
  reachable self -> reachable (state_after (predict_next_top_n n dealer) self).

(** Every table is a dict: no key twice. *)
Record wf (self : RoulettePredictor) : Prop := {
wf_clockwise : dict_wf (distance_freq_clockwise self);
wf_anticlockwise : dict_wf (distance_freq_anticlockwise self);
wf_number : dict_wf (number_weights self);
wf_color : dict_wf (color_weights self);
wf_zone : dict_wf (zone_weights self);
wf_dealers : dict_wf (dealer_zone_weights self);
wf_dealer : forall dealer c,
  dict_lookup dealer (dealer_zone_weights self) = Some c -> dict_wf c
}.

(** A run of [add_spin] calls from left to right. *)
Definition add_spins (l : list (Z * option string)) (self : RoulettePredictor)
: RoulettePredictor :=
fold_left (fun self '(number, dealer) =>
             state_after (add_spin number dealer) self) l self.
End Predictor.
Arguments RoulettePredictor : clear implicits.
Arguments PredictionReport : clear implicits.
Arguments Prediction : clear implicits.
End testRou.

(** ** The two arithmetics *)

(** IEEE binary64, the [float] of CPython. The [int] counts the scripts
    hold ([0] and [1] in [testRou.py], spin counts in [roulette.py]) are
    exactly representable, and Python's mixed [int]/[float] operations
    agree with the [float] ones on them. *)
Definition float_of_int (z : Z) : float :=
  match z with
  | Z0 => 0%float
  | Zpos _ => PrimFloat.of_uint63 (Uint63.of_Z z)
  | Zneg p => PrimFloat.opp (PrimFloat.of_uint63 (Uint63.of_Z (Zpos p)))
  end.

Global Instance float64 : Number float := {|
  of_int := float_of_int;
  wadd := PrimFloat.add;
  wmul := PrimFloat.mul;
  wdiv := fun x y =>
    if PrimFloat.eqb y 0%float then None else Some (PrimFloat.div x y);
  wlt := PrimFloat.ltb;
  prune_eps := 0x1.0c6f7a0b5ed8dp-20%float
|}.

(** The defaults of [RoulettePredictor.__init__] in [testRou.py]:
    [max_history=200], [decay=0.9]; and the literal [1.0]. *)
Definition default_max_history : nat := 200.

Definition default_decay : float := 0x1.ccccccccccccdp-1%float.

Definition no_decay : float := 1%float.

(** Exact rational arithmetic: sums and comparisons are those of the [int]
    counts of [roulette.py] (its quotients are floats), and it is the
    arithmetic without rounding that the weight law is compared with. The
    weights of [testRou.py] are binary64. *)
Definition Qc_ltb (x y : Qc) : bool :=
  match (x ?= y)%Qc with Lt => true | _ => false end.

Global Instance exact : Number Qc := {|
  of_int := fun z => Q2Qc (inject_Z z);
  wadd := Qcplus;
  wmul := Qcmult;
  wdiv := fun x y =>
    if Qc_eq_dec y (Q2Qc 0) then None else Some (Qcdiv x y);
  wlt := Qc_ltb;
  prune_eps := Q2Qc (1 # 1000000)
|}.

(** ** The scenarios of the specification *)

(** A fresh predictor of [testRou.py] with the default history bound. *)
Definition fresh (decay : float) : testRou.RoulettePredictor float :=
  testRou.__init__ default_max_history decay.

(** Spins [0, 32], then [0, 32, 15], recorded with [decay=1.0] and no
    dealer. *)
Definition after_0_32 : testRou.RoulettePredictor float :=
  testRou.add_spins [(0, None); (32, None)] (fresh no_decay).

Definition after_0_32_15 : testRou.RoulettePredictor float :=
  testRou.add_spins [(0, None); (32, None); (15, None)] (fresh no_decay).

(** Two dealers seen once each, with the default decay. *)
Definition after_two_dealers : testRou.RoulettePredictor float :=
  testRou.add_spins [(0, Some "A"%string); (5, Some "B"%string)]
    (fresh default_decay).

(** A dealer seen once, then 132 spins without a dealer, with the default
    decay. *)
Definition after_dealer_then_132 : testRou.RoulettePredictor float :=
  testRou.add_spins ((0, Some "A"%string) :: repeat (0, None) 132)
    (fresh default_decay).

(** The report for spin #4 after the spins [0, 32, 15]: each of the three
    numbers and colors has a third of the weight. *)
Definition report_0_32_15 : testRou.PredictionReport float :=
  {| testRou.report_spin_number := 4;
     testRou.report_direction := anticlockwise;
     testRou.dist_predictions := [(19, 36, 1%float)];
     testRou.hot_numbers :=
       [(0, 1%float, 0x1.5555555555555p-2%float);
        (32, 1%float, 0x1.5555555555555p-2%float);
        (15, 1%float, 0x1.5555555555555p-2%float)];
     testRou.hot_colors :=
       [(green, 0x1.5555555555555p-2%float);
        (red, 0x1.5555555555555p-2%float);
        (black, 0x1.5555555555555p-2%float)];
     testRou.hot_zones := [(1, 3%float, 1%float)];
     testRou.dealer_zones := None |}.

(** The same spins in [roulette.py]. *)
Definition roulette_after_0_32_15 : roulette.RoulettePredictor float :=
  roulette.add_spins [0; 32; 15] roulette.__init__.

(** ** The weighted-count law *)

(** The weighted count of [pos] after the spins [l] with decay [d]: the sum,
    over the places [i] (from 1) at which [pos] was recorded, of
    [d ^ (N - i)], where [N] is the number of spins. *)
Fixpoint weighted_count (d : Qc) (l : list (Z * option string)) (pos : Z) : Qc :=
  match l with
  | [] => 0%Qc
  | (number, _) :: l' =>
      ((if decide (number = pos) then d ^ length l' else 0) +
       weighted_count d l' pos)%Qc
  end.


(** ** The weight law in the arithmetic of the code *)

(** One call of [add_spin] on the weight of [pos], as the law has it: the
    weight is multiplied by [d], and dropped when the product is below
    [1e-6]; the call that records [pos] then adds 1 to it (to 0 when there
    is no weight). Products and sums are those of the code's numbers. *)
Definition law_step {W : Type} `{Number W} (d : W) (pos : Z) (w : option W)
    (number : Z) : option W :=
  let decayed :=
    match w with
    | Some w => decay_weight d w
    | None => None
    end in
  if decide (number = pos)
  then Some (wadd (default (of_int 0) decayed) (of_int 1))
  else decayed.

(** The weight of [pos] after the calls [l], from no weight at all. *)
Definition law_weight {W : Type} `{Number W} (d : W) (pos : Z)
    (l : list (Z * option string)) : option W :=
  fold_left (fun w x => law_step d pos w x.1) l None.






(** ** [add_spin] in closed form *)

(** The distance a round of [add_spin] looks up, from the spins recorded
    before it: none for the first spin, otherwise the distance from the
    previous number in the direction of the new spin; the lookup raises
    when one of the two numbers is not on the wheel. *)
Definition distance_update (before : list (Z * option string)) (number : Z)
  : result (option (Direction * Z)) :=
  match last before with
  | None => Ok None
  | Some prev =>
      let direction := get_spin_direction (len before + 1) in
      result_bind
        (match direction with
         | clockwise => distance_clockwise prev.1 number
         | anticlockwise => distance_anticlockwise prev.1 number
         end)
        (fun dist => Ok (Some (direction, dist)))
  end.

(** A distance table after the round: decayed, and counting the new
    distance when it is the table of the new spin's direction. *)
Definition distances_after {W} `{Number W} (decay : W)
    (update : result (option (Direction * Z))) (direction : Direction)
    (c : Counter W Z) : Counter W Z :=
  match update with
  | Ok (Some (direction', dist)) =>
      if decide (direction' = direction)
      then counter_incr dist (decay_counter decay c)
      else decay_counter decay c
  | _ => decay_counter decay c
  end.

(** The zone table after the round. *)
Definition zones_after {W} `{Number W} (decay : W) (number : Z)
    (c : Counter W Z) : Counter W Z :=
  match zone_truthy (find_zone number) with
  | Some zone => counter_incr zone (decay_counter decay c)
  | None => decay_counter decay c
  end.

(** The predictor after [add_spin(number, dealer)], whether the call
    returned or raised. *)
Definition after_add_spin {W} `{Number W} (self : testRou.RoulettePredictor W)
    (number : Z) (dealer : option string) : testRou.RoulettePredictor W :=
  let d := testRou.decay self in
  let update := distance_update (testRou.spins self) number in
  {| testRou.spins := testRou.spins self ++ [(number, dealer)];
     testRou.max_history := testRou.max_history self;
     testRou.decay := d;
     testRou.distance_freq_clockwise :=
       distances_after d update clockwise (testRou.distance_freq_clockwise self);
     testRou.distance_freq_anticlockwise :=
       distances_after d update anticlockwise
         (testRou.distance_freq_anticlockwise self);
     testRou.number_weights :=
       counter_incr number (decay_counter d (testRou.number_weights self));
     testRou.color_weights :=
       counter_incr (get_color number)
         (decay_counter d (testRou.color_weights self));
     testRou.zone_weights := zones_after d number (testRou.zone_weights self);
     testRou.dealer_zone_weights :=
       testRou.dealers_after number dealer
         (testRou.decay_dealers d (testRou.dealer_zone_weights self));
     testRou.spin_history :=
       deque_append (testRou.max_history self) (number, dealer)
         (testRou.spin_history self) |}.

(** Every recorded number is a wheel position. *)
Definition valid_spins (l : list (Z * option string)) : Prop :=
  Forall (fun x => 0 <= x.1 <= 36) l.

(** The other direction. *)
Definition opposite (direction : Direction) : Direction :=
  match direction with
  | clockwise => anticlockwise
  | anticlockwise => clockwise
  end.

(** The distance function [add_spin] uses for a direction. *)
Definition distance_in (direction : Direction) (from_num to_num : Z)
  : result Z :=
  match direction with
  | clockwise => distance_clockwise from_num to_num
  | anticlockwise => distance_anticlockwise from_num to_num
  end.


(** Four spins on a predictor that keeps a history of two. *)
Definition after_four_keep_two : testRou.RoulettePredictor float :=
  testRou.add_spins [(0, None); (32, None); (15, None); (19, None)]
    (testRou.__init__ 2 default_decay).

(** The keys the tables can hold when only wheel positions are recorded:
    distances and numbers in 0..36, the three colors, zones in 1..8. *)
Definition bounded_tables {W} (self : testRou.RoulettePredictor W) : Prop :=
  (forall direction k,
     k ∈ dict_keys (testRou.distance_freq self direction) -> 0 <= k <= 36) /\
  (forall k, k ∈ dict_keys (testRou.number_weights self) -> 0 <= k <= 36) /\
  (forall color,
     color ∈ dict_keys (testRou.color_weights self) -> color <> unknown) /\
  (forall zone, zone ∈ dict_keys (testRou.zone_weights self) -> 1 <= zone <= 8) /\
  (forall dealer c zone,
     dict_lookup dealer (testRou.dealer_zone_weights self) = Some c ->
     zone ∈ dict_keys c -> 1 <= zone <= 8).


(** ** [roulette.py]: [add_spin] in closed form *)

(** The distance a round of [add_spin] of [roulette.py] looks up. *)
Definition roulette_distance_update (before : list Z) (number : Z)
  : result (option (Direction * Z)) :=
  match last before with
  | None => Ok None
  | Some prev_num =>
      let direction := get_spin_direction (len before + 1) in
      result_bind (distance_in direction prev_num number)
        (fun dist => Ok (Some (direction, dist)))
  end.

(** A distance table of [roulette.py] after the round: nothing decays. *)
Definition roulette_distances_after {W} `{Number W}
    (update : result (option (Direction * Z))) (direction : Direction)
    (c : Counter W Z) : Counter W Z :=
  match update with
  | Ok (Some (direction', dist)) =>
      if decide (direction' = direction) then counter_incr dist c else c
  | _ => c
  end.

Definition roulette_after_add_spin {W} `{Number W}
    (self : roulette.RoulettePredictor W) (number : Z)
  : roulette.RoulettePredictor W :=
  let update := roulette_distance_update (roulette.spins self) number in
  {| roulette.spins := roulette.spins self ++ [number];
     roulette.distance_freq_clockwise :=
       roulette_distances_after update clockwise
         (roulette.distance_freq_clockwise self);
     roulette.distance_freq_anticlockwise :=
       roulette_distances_after update anticlockwise
         (roulette.distance_freq_anticlockwise self) |}.

(** Every recorded number of [roulette.py] is a wheel position. *)
Definition valid_numbers (l : list Z) : Prop := Forall (fun x => 0 <= x <= 36) l.

(** Every count of the table is at least one. *)
Definition counts_positive {K} (c : Counter Qc K) : Prop :=
  Forall (fun x => (1 <= x.2)%Qc) c.


(** The sum of a list of rationals. *)
Definition sum_Qc (l : list Qc) : Qc := fold_right Qcplus (Q2Qc 0) l.



(** * Proofs *)

(** ** Dictionaries *)

Section DictFacts.
Context {K V : Type} `{EqDecision K}.
Implicit Types (d : dict K V) (k : K) (v : V).

Lemma dict_lookup_set_eq d k v : dict_lookup k (dict_set k v d) = Some v.
Proof.
  induction d as [|[k' v'] d IH]; simpl.
  - by rewrite decide_True.
  - destruct (decide (k' = k)) as [->|Hne]; simpl.
    + by rewrite decide_True.
    + by rewrite decide_False.
Qed.

Lemma dict_lookup_set_ne d k k' v :
  k <> k' -> dict_lookup k' (dict_set k v d) = dict_lookup k' d.
Proof.
  intros Hne. induction d as [|[k0 v0] d IH]; simpl.
  - by rewrite decide_False.
  - destruct (decide (k0 = k)) as [->|Hne0]; simpl.
    + by rewrite !decide_False.
    + by rewrite IH.
Qed.

Lemma dict_lookup_del_eq d k : dict_lookup k (dict_del k d) = None.
Proof.
  induction d as [|[k' v'] d IH]; simpl; [done|].
  destruct (decide (k' = k)); simpl; [done|].
  by rewrite decide_False.
Qed.

Lemma dict_lookup_del_ne d k k' :
  k <> k' -> dict_lookup k' (dict_del k d) = dict_lookup k' d.
Proof.
  intros Hne. induction d as [|[k0 v0] d IH]; simpl; [done|].
  destruct (decide (k0 = k)) as [->|Hne0]; simpl.
  - by rewrite decide_False.
  - by rewrite IH.
Qed.

Lemma dict_lookup_None d k : dict_lookup k d = None <-> k ∉ dict_keys d.
Proof.
  induction d as [|[k' v'] d IH]; simpl.
  - split; [intros _; apply not_elem_of_nil | done].
  - rewrite not_elem_of_cons. destruct (decide (k' = k)) as [->|Hne].
    + split; [done | by intros [? _]].
    + rewrite IH. split; [by intros; split; [congruence|] | by intros [_ ?]].
Qed.

Lemma dict_lookup_Some_keys d k v :
  dict_lookup k d = Some v -> k ∈ dict_keys d.
Proof.
  intros Hl. destruct (decide (k ∈ dict_keys d)) as [|Hn]; [done|].
  apply dict_lookup_None in Hn. congruence.
Qed.

Lemma dict_keys_lookup d k : k ∈ dict_keys d -> is_Some (dict_lookup k d).
Proof.
  intros Hin. destruct (dict_lookup k d) eqn:E; [by eexists|].
  by apply dict_lookup_None in E.
Qed.

Lemma dict_keys_set d k k' v :
  k' ∈ dict_keys (dict_set k v d) <-> k' = k \/ k' ∈ dict_keys d.
Proof.
  induction d as [|[k0 v0] d IH]; simpl.
  - rewrite list_elem_of_singleton. split; [by left | intros [?|Hn]; [done|]].
    by apply not_elem_of_nil in Hn.
  - destruct (decide (k0 = k)) as [->|Hne]; simpl; rewrite !elem_of_cons.
    + tauto.
    + unfold dict_keys in IH. rewrite IH. tauto.
Qed.

Lemma dict_keys_del d k k' :
  k' ∈ dict_keys (dict_del k d) <-> k' <> k /\ k' ∈ dict_keys d.
Proof.
  induction d as [|[k0 v0] d IH]; simpl.
  - split; [intros Hn | intros [_ Hn]]; by apply not_elem_of_nil in Hn.
  - unfold dict_keys in IH.
    destruct (decide (k0 = k)) as [->|Hne]; simpl; rewrite ?elem_of_cons, IH.
    + split; [tauto | intros [? [?|?]]; [congruence | tauto]].
    + split; [intros [->|?]; tauto | tauto].
Qed.

Lemma dict_wf_set d k v : dict_wf d -> dict_wf (dict_set k v d).
Proof.
  unfold dict_wf. induction d as [|[k0 v0] d IH]; simpl; intros Hwf.
  - apply NoDup_singleton.
  - apply NoDup_cons in Hwf as [Hn Hwf].
    destruct (decide (k0 = k)) as [->|Hne]; simpl.
    + by apply NoDup_cons.
    + apply NoDup_cons. split; [|by apply IH].
      intros Hin. apply (dict_keys_set d k k0 v) in Hin as [?|?]; congruence.
Qed.

Lemma dict_wf_del d k : dict_wf d -> dict_wf (dict_del k d).
Proof.
  unfold dict_wf. induction d as [|[k0 v0] d IH]; simpl; intros Hwf; [done|].
  apply NoDup_cons in Hwf as [Hn Hwf].
  destruct (decide (k0 = k)) as [->|Hne]; simpl; [by apply IH|].
  apply NoDup_cons. split; [|by apply IH].
  intros Hin. by apply (dict_keys_del d k k0) in Hin as [_ ?].
Qed.

Lemma dict_wf_nil : dict_wf ([] : dict K V).
Proof. apply NoDup_nil_2. Qed.

(** A dict with no key has no entry. *)
Lemma dict_no_lookup_nil d : (forall k, dict_lookup k d = None) -> d = [].
Proof.
  destruct d as [|[k v] d]; [done|]. intros Hall. specialize (Hall k).
  simpl in Hall. by rewrite decide_True in Hall.
Qed.

(** A loop over a snapshot of the keys that rewrites one key per round
    rewrites every key once. *)
Section FoldKeys.
Variable f : K -> dict K V -> dict K V.
Variable g : K -> option V -> option V.
Hypothesis f_lookup : forall k k' d,
  dict_lookup k' (f k d) =
    if decide (k = k') then g k (dict_lookup k d) else dict_lookup k' d.

Lemma dict_fold_lookup (ks : list K) d k :
  NoDup ks ->
  dict_lookup k (fold_left (fun d k => f k d) ks d) =
    if decide (k ∈ ks) then g k (dict_lookup k d) else dict_lookup k d.
Proof.
  revert d. induction ks as [|k0 ks IH]; intros d Hnd; cbn [fold_left].
  - rewrite decide_False; [done | apply not_elem_of_nil].
  - apply NoDup_cons in Hnd as [Hn Hnd]. rewrite IH by done.
    rewrite !f_lookup. destruct (decide (k0 = k)) as [->|Hne].
    + destruct (decide (k ∈ ks)); [done|].
      rewrite decide_True; [done | by left].
    + destruct (decide (k ∈ ks)) as [Hin|Hnin].
      * rewrite decide_True; [done | by right].
      * rewrite decide_False; [done|].
        rewrite elem_of_cons. intros [?|?]; congruence.
Qed.

Lemma dict_fold_keys_lookup d k :
  dict_wf d ->
  dict_lookup k (fold_left (fun d k => f k d) (dict_keys d) d) =
    match dict_lookup k d with
    | Some v => g k (Some v)
    | None => None
    end.
Proof.
  intros Hwf. rewrite dict_fold_lookup by done.
  destruct (decide (k ∈ dict_keys d)) as [Hin|Hnin].
  - apply dict_keys_lookup in Hin as [v ->]. done.
  - apply dict_lookup_None in Hnin. by rewrite Hnin.
Qed.

Hypothesis f_wf : forall k d, dict_wf d -> dict_wf (f k d).

Lemma dict_fold_wf (ks : list K) d :
  dict_wf d -> dict_wf (fold_left (fun d k => f k d) ks d).
Proof. revert d. induction ks; simpl; auto. Qed.
End FoldKeys.
End DictFacts.

(** ** Counters *)

Section CounterFacts.
Context {W : Type} `{Number W} {K : Type} `{EqDecision K}.
Implicit Types (c : Counter W K) (k : K) (w : W).

Lemma counter_get_lookup c k w : dict_lookup k c = Some w -> counter_get k c = w.
Proof. unfold counter_get. by intros ->. Qed.

Lemma counter_incr_lookup_eq c k :
  dict_lookup k (counter_incr k c) = Some (wadd (counter_get k c) (of_int 1)).
Proof. apply dict_lookup_set_eq. Qed.


Lemma counter_incr_wf c k : dict_wf c -> dict_wf (counter_incr k c).
Proof. apply dict_wf_set. Qed.

Lemma decay_entry_lookup dec k k' c :
  dict_lookup k' (decay_entry dec k c) =
    if decide (k = k')
    then (fun o => decay_weight dec (default (of_int 0) o)) (dict_lookup k c)
    else dict_lookup k' c.
Proof.
  unfold decay_entry, decay_weight, counter_get. rewrite dict_lookup_set_eq.
  destruct (dict_lookup k c) as [w|] eqn:E; simpl;
    (destruct (wlt _ prune_eps);
     destruct (decide (k = k')) as [<-|Hne];
     rewrite ?dict_lookup_del_eq, ?dict_lookup_del_ne,
             ?dict_lookup_set_eq, ?dict_lookup_set_ne by done; done).
Qed.

Lemma decay_entry_wf dec k c : dict_wf c -> dict_wf (decay_entry dec k c).
Proof.
  intros Hwf. unfold decay_entry. destruct (wlt _ _).
  - by apply dict_wf_del, dict_wf_set.
  - by apply dict_wf_set.
Qed.

(** The decay loop, entry by entry: a weight is multiplied by the decay
    factor, and the entry is gone when the product is below [1e-6]. *)
Lemma decay_counter_lookup dec c k :
  dict_wf c ->
  dict_lookup k (decay_counter dec c) =
    match dict_lookup k c with
    | Some w => decay_weight dec w
    | None => None
    end.
Proof.
  intros Hwf. unfold decay_counter.
  rewrite (dict_fold_keys_lookup (fun k c => decay_entry dec k c)
             (fun _ o => decay_weight dec (default (of_int 0) o))); [|by intros; apply decay_entry_lookup|done].
  by destruct (dict_lookup k c).
Qed.

Lemma decay_counter_wf dec c : dict_wf c -> dict_wf (decay_counter dec c).
Proof.
  intros Hwf. unfold decay_counter.
  apply (dict_fold_wf (fun k c => decay_entry dec k c)); [|done].
  intros; by apply decay_entry_wf.
Qed.
End CounterFacts.


(** ** The wheel *)

Lemma len_wheel_sequence : len wheel_sequence = 37.
Proof. reflexivity. Qed.

Lemma list_index_spec x l i :
  list_index x l = Ok i ->
  0 <= i < len l /\ nth_error l (Z.to_nat i) = Some x.
Proof.
  revert i. induction l as [|y l IH]; intros i; simpl; [done|].
  destruct (decide (y = x)) as [->|Hne].
  - intros [= <-]. unfold len; simpl. split; [lia | done].
  - destruct (list_index x l) as [j|e]; simpl; [|done].
    intros [= <-]. destruct (IH j eq_refl) as [Hj Hnth].
    unfold len in *; simpl length. split; [lia|].
    replace (Z.to_nat (j + 1)) with (S (Z.to_nat j)) by lia. done.
Qed.

Lemma list_index_elem x l : x ∈ l -> exists i, list_index x l = Ok i.
Proof.
  induction l as [|y l IH]; simpl; intros Hin.
  - by apply elem_of_nil in Hin.
  - destruct (decide (y = x)); [by eexists|].
    apply elem_of_cons in Hin as [?|Hin]; [congruence|].
    destruct (IH Hin) as [i ->]. by eexists.
Qed.

Lemma wheel_positions x : x ∈ wheel_sequence <-> 0 <= x <= 36.
Proof.
  split.
  - unfold wheel_sequence. rewrite !elem_of_cons, elem_of_nil. lia.
  - intros Hx. assert (Hc : x = 0 \/ x = 1 \/ x = 2 \/ x = 3 \/ x = 4 \/ x = 5 \/
      x = 6 \/ x = 7 \/ x = 8 \/ x = 9 \/ x = 10 \/ x = 11 \/ x = 12 \/ x = 13 \/
      x = 14 \/ x = 15 \/ x = 16 \/ x = 17 \/ x = 18 \/ x = 19 \/ x = 20 \/
      x = 21 \/ x = 22 \/ x = 23 \/ x = 24 \/ x = 25 \/ x = 26 \/ x = 27 \/
      x = 28 \/ x = 29 \/ x = 30 \/ x = 31 \/ x = 32 \/ x = 33 \/ x = 34 \/
      x = 35 \/ x = 36) by lia.
    unfold wheel_sequence. rewrite !elem_of_cons. tauto.
Qed.

(** [index_on_wheel] finds every position, at a slot in [0, 37). *)
Lemma index_on_wheel_valid x :
  0 <= x <= 36 -> exists i, index_on_wheel x = Ok i /\ 0 <= i < 37.
Proof.
  intros Hx. apply wheel_positions, list_index_elem in Hx as [i Hi].
  exists i. split; [done|]. by apply list_index_spec in Hi as [? _].
Qed.

Lemma index_on_wheel_range x i : index_on_wheel x = Ok i -> 0 <= i < 37.
Proof. intros Hi. by apply list_index_spec in Hi as [? _]. Qed.

Lemma list_getitem_elem {A} (l : list A) i a : list_getitem l i = Ok a -> a ∈ l.
Proof.
  unfold list_getitem. destruct (_ <? 0); [done|].
  destruct (nth_error l _) eqn:E; [|done]. intros [= <-].
  apply list_elem_of_In. eapply nth_error_In; eauto.
Qed.

Lemma list_getitem_in_range {A} (l : list A) i :
  0 <= i < len l -> exists a, list_getitem l i = Ok a.
Proof.
  intros Hi. unfold list_getitem.
  destruct (i <? 0) eqn:E1; [lia|]. rewrite E1.
  destruct (nth_error l (Z.to_nat i)) eqn:E; [by eexists|].
  apply nth_error_None in E. unfold len in Hi. lia.
Qed.

Lemma predicted_index_range direction last_index dist :
  0 <= predicted_index direction last_index dist < len wheel_sequence.
Proof.
  rewrite len_wheel_sequence.
  destruct direction; simpl; rewrite len_wheel_sequence; apply Z.mod_pos_bound; lia.
Qed.

(** C7. For all wheel positions [a], [b] in [0, 36], both distance functions
    return (they do not raise) an integer in [0, 36],
    [distance_clockwise a b = (37 - distance_anticlockwise a b) mod 37], and
    [distance_clockwise a a = 0]. *)
Theorem distance_clockwise_anticlockwise (a b : Z) :
  0 <= a <= 36 -> 0 <= b <= 36 ->
  exists cw acw,
    distance_clockwise a b = Ok cw /\
    distance_anticlockwise a b = Ok acw /\
    cw = (37 - acw) mod 37 /\
    0 <= cw <= 36 /\ 0 <= acw <= 36 /\
    distance_clockwise a a = Ok 0.
Proof.
  intros Ha Hb.
  destruct (index_on_wheel_valid a Ha) as (i & Hi & Hir).
  destruct (index_on_wheel_valid b Hb) as (j & Hj & Hjr).
  unfold distance_clockwise, distance_anticlockwise.
  rewrite Hi, Hj; simpl. rewrite len_wheel_sequence.
  exists ((j - i) mod 37), ((i - j) mod 37).
  split; [done|]. split; [done|].
  assert (Hcw := Z.mod_pos_bound (j - i) 37 eq_refl).
  assert (Hacw := Z.mod_pos_bound (i - j) 37 eq_refl).
  repeat split; try lia.
  - destruct (decide (i = j)) as [->|Hne].
    + by rewrite !Z.sub_diag.
    + rewrite (Z.mod_small (37 - _)).
      * destruct (Z.lt_ge_cases i j).
        -- rewrite (Z.mod_small (j - i)) by lia.
           replace (i - j) with (37 - (j - i) + -1 * 37) by lia.
           rewrite Z.mod_add by lia. rewrite Z.mod_small; lia.
        -- rewrite (Z.mod_small (i - j)) by lia.
           replace (j - i) with (37 - (i - j) + -1 * 37) by lia.
           rewrite Z.mod_add by lia. rewrite Z.mod_small; lia.
      * assert ((i - j) mod 37 <> 0); [|lia].
        intros H0. apply Z.mod_divide in H0; [|lia].
        destruct H0 as [q Hq]. lia.
  - by rewrite Z.sub_diag.
Qed.

Lemma distance_clockwise_anticlockwise_witness :
  exists cw acw,
    distance_clockwise 0 32 = Ok cw /\
    distance_anticlockwise 0 32 = Ok acw /\
    cw = (37 - acw) mod 37 /\
    0 <= cw <= 36 /\ 0 <= acw <= 36 /\
    distance_clockwise 0 0 = Ok 0.
Proof. apply (distance_clockwise_anticlockwise 0 32); lia. Defined.

(** ** Reasoning about methods *)

Section Hoare.
Context {S : Type}.
Implicit Types (P E I : S -> Prop).

Lemma hoare_ret {A} P (Q : A -> S -> Prop) E (a : A) :
  (forall self, P self -> Q a self) -> hoare P (ret a) Q E.
Proof. intros HQ self HP. by apply HQ. Qed.

Lemma hoare_gets {A} P (Q : A -> S -> Prop) E (f : S -> A) :
  (forall self, P self -> Q (f self) self) -> hoare P (gets f) Q E.
Proof. intros HQ self HP. by apply HQ. Qed.

Lemma hoare_modify P (Q : unit -> S -> Prop) E (f : S -> S) :
  (forall self, P self -> Q tt (f self)) -> hoare P (modify f) Q E.
Proof. intros HQ self HP. by apply HQ. Qed.

Lemma hoare_lift {A} P (Q : A -> S -> Prop) E (r : S -> result A) :
  (forall self a, P self -> r self = Ok a -> Q a self) ->
  (forall self e, P self -> r self = Raise e -> E self) ->
  hoare P (fun self => lift (r self) self) Q E.
Proof.
  intros HQ HE self HP. unfold lift.
  destruct (r self) eqn:Hr; [by eapply HQ | by eapply HE].
Qed.

Lemma hoare_bind {A B} P (R : A -> S -> Prop) (Q : B -> S -> Prop) E
    (m : M S A) (k : A -> M S B) :
  hoare P m R E -> (forall a, hoare (R a) (k a) Q E) ->
  hoare P (bind m k) Q E.
Proof.
  intros Hm Hk self HP. unfold bind. specialize (Hm self HP).
  destruct (m self) as [[a|e] self']; [by apply Hk | done].
Qed.

Lemma hoare_weaken {A} P P' (Q : A -> S -> Prop) E (m : M S A) :
  (forall self, P' self -> P self) -> hoare P m Q E -> hoare P' m Q E.
Proof. intros HP Hm self HP'. by apply Hm, HP. Qed.

Lemma hoare_assume {A} P (phi : Prop) (Q : A -> S -> Prop) E (m : M S A) :
  (phi -> hoare P m Q E) -> hoare (fun self => P self /\ phi) m Q E.
Proof. intros Hm self [HP Hphi]. by apply Hm. Qed.

Lemma preserves_state_after {A} (I : S -> Prop) (m : M S A) self :
  preserves I m -> I self -> I (state_after m self).
Proof.
  intros Hm HI. specialize (Hm self HI). unfold state_after.
  by destruct (m self) as [[a|e] self'].
Qed.

Lemma preserves_ret {A} I (a : A) : preserves I (ret a).
Proof. by apply hoare_ret. Qed.

Lemma preserves_gets {A} I (f : S -> A) : preserves I (gets f).
Proof. by apply hoare_gets. Qed.

Lemma preserves_lift {A} I (r : S -> result A) :
  preserves I (fun self => lift (r self) self).
Proof. by apply hoare_lift. Qed.

Lemma preserves_lift_const {A} I (r : result A) : preserves I (lift r).
Proof. apply (preserves_lift I (fun _ => r)). Qed.

Lemma preserves_modify I (f : S -> S) :
  (forall self, I self -> I (f self)) -> preserves I (modify f).
Proof. intros Hf. by apply hoare_modify. Qed.

Lemma preserves_bind {A B} I (m : M S A) (k : A -> M S B) :
  preserves I m -> (forall a, preserves I (k a)) -> preserves I (bind m k).
Proof. intros Hm Hk. by eapply hoare_bind. Qed.
End Hoare.

(** ** [testRou.py]: the effect of the methods *)

(** Runs the monadic steps of a method of [testRou.py] down to its calls of
    the table operations. *)
Ltac run_method :=
  unfold state_after, returned, bind, gets, modify, ret, lift,
    testRou.set_spins, testRou.set_spin_history, testRou.set_distance_freq,
    testRou.set_number_weights, testRou.set_color_weights,
    testRou.set_zone_weights, testRou.set_dealer_zone_weights,
    testRou.distance_freq;
  cbn [fst snd testRou.spins testRou.max_history testRou.decay
       testRou.distance_freq_clockwise testRou.distance_freq_anticlockwise
       testRou.number_weights testRou.color_weights testRou.zone_weights
       testRou.dealer_zone_weights testRou.spin_history].

Section TestRouFacts.
Context {W : Type} `{Number W}.
Import testRou.
Implicit Types (self : RoulettePredictor W) (dd : dict string (Counter W Z)) (dec : W).

(** *** The dealer loop of [_apply_decay] *)

Lemma decay_dealer_lookup dec dealer dealer' dd :
  dict_lookup dealer' (decay_dealer dec dealer dd) =
    if decide (dealer = dealer')
    then (fun o => decay_table dec (default counter_new o)) (dict_lookup dealer dd)
    else dict_lookup dealer' dd.
Proof.
  unfold decay_dealer, decay_table, defaultdict_getitem.
  destruct (dict_lookup dealer dd) as [c|] eqn:E; cbn [default];
    (destruct (list_is_empty (decay_counter dec _));
     destruct (decide (dealer = dealer')) as [<-|Hne];
     rewrite ?dict_lookup_del_eq, ?dict_lookup_del_ne,
             ?dict_lookup_set_eq, ?dict_lookup_set_ne by done; done).
Qed.

Lemma decay_dealer_wf dec dealer dd :
  dict_wf dd -> dict_wf (decay_dealer dec dealer dd).
Proof.
  intros Hwf. unfold decay_dealer, defaultdict_getitem.
  destruct (dict_lookup dealer dd);
    destruct (list_is_empty (decay_counter dec _));
    auto using @dict_wf_del, @dict_wf_set.
Qed.

(** The dealer loop, dealer by dealer: the counter is decayed, and the
    dealer is gone when nothing of it is left. *)
Lemma decay_dealers_lookup dec dd dealer :
  dict_wf dd ->
  dict_lookup dealer (decay_dealers dec dd) =
    match dict_lookup dealer dd with
    | Some c => decay_table dec c
    | None => None
    end.
Proof.
  intros Hwf. unfold decay_dealers.
  rewrite (dict_fold_keys_lookup (fun k dd => decay_dealer dec k dd)
             (fun _ o => decay_table dec (default counter_new o)));
    [|by intros; apply decay_dealer_lookup|done].
  by destruct (dict_lookup dealer dd).
Qed.

Lemma decay_dealers_wf dec dd : dict_wf dd -> dict_wf (decay_dealers dec dd).
Proof.
  intros Hwf. unfold decay_dealers.
  apply (dict_fold_wf (fun k dd => decay_dealer dec k dd)); [|done].
  intros; by apply decay_dealer_wf.
Qed.

Lemma decay_table_wf dec (c c' : Counter W Z) :
  dict_wf c -> decay_table dec c = Some c' -> dict_wf c'.
Proof.
  unfold decay_table. intros Hwf. destruct (list_is_empty _); [done|].
  intros [= <-]. by apply decay_counter_wf.
Qed.

(** *** Every reachable predictor is well formed *)

Lemma wf_init max_history dec : wf (__init__ max_history dec).
Proof. split; try apply dict_wf_nil. done. Qed.

Lemma wf_set_spins self l : wf self -> wf (set_spins l self).
Proof. by intros []. Qed.

Lemma wf_set_spin_history self q : wf self -> wf (set_spin_history q self).
Proof. by intros []. Qed.

Lemma wf_set_distance_freq self direction c :
  wf self -> dict_wf c -> wf (set_distance_freq direction c self).
Proof. intros [] Hc. by destruct direction. Qed.

Lemma wf_set_number_weights self c :
  wf self -> dict_wf c -> wf (set_number_weights c self).
Proof. by intros [] Hc. Qed.

Lemma wf_set_color_weights self c :
  wf self -> dict_wf c -> wf (set_color_weights c self).
Proof. by intros [] Hc. Qed.

Lemma wf_set_zone_weights self c :
  wf self -> dict_wf c -> wf (set_zone_weights c self).
Proof. by intros [] Hc. Qed.

Lemma wf_set_dealer_zone_weights self dd :
  wf self -> dict_wf dd ->
  (forall dealer c, dict_lookup dealer dd = Some c -> dict_wf c) ->
  wf (set_dealer_zone_weights dd self).
Proof. by intros [] Hdd Hc. Qed.

Lemma wf_distance_freq self direction :
  wf self -> dict_wf (distance_freq self direction).
Proof. intros []. by destruct direction. Qed.

Lemma apply_decay_wf : preserves wf _apply_decay.
Proof.
  unfold _apply_decay.
  repeat (apply preserves_bind; [|intros _]); apply preserves_modify;
    intros self Hwf.
  - apply wf_set_distance_freq, decay_counter_wf, wf_distance_freq; done.
  - apply wf_set_distance_freq, decay_counter_wf, wf_distance_freq; done.
  - apply wf_set_number_weights, decay_counter_wf, Hwf; done.
  - apply wf_set_color_weights, decay_counter_wf, Hwf; done.
  - apply wf_set_zone_weights, decay_counter_wf, Hwf; done.
  - apply wf_set_dealer_zone_weights; [done|apply decay_dealers_wf, Hwf|].
    intros dealer c. rewrite decay_dealers_lookup by apply Hwf.
    destruct (dict_lookup dealer _) as [c0|] eqn:E; [|done].
    apply decay_table_wf. by eapply wf_dealer.
Qed.

Lemma dealer_zone_weights_getitem_wf name :
  hoare wf (dealer_zone_weights_getitem name)
    (fun c self => wf self /\ dict_wf c) wf.
Proof.
  intros self Hwf. unfold dealer_zone_weights_getitem, defaultdict_getitem.
  destruct (dict_lookup name (dealer_zone_weights self)) as [c|] eqn:E.
  - split; [|by eapply wf_dealer].
    apply wf_set_dealer_zone_weights; [done|apply Hwf|apply Hwf].
  - split; [|apply dict_wf_nil].
    apply wf_set_dealer_zone_weights; [done|apply dict_wf_set, Hwf|].
    intros dealer c. destruct (decide (name = dealer)) as [<-|Hne].
    + rewrite dict_lookup_set_eq. intros [= <-]. apply dict_wf_nil.
    + rewrite dict_lookup_set_ne by done. apply Hwf.
Qed.

(** *** [predict_next_top_n] only reads *)

Lemma set_dealer_zone_weights_same self :
  set_dealer_zone_weights (dealer_zone_weights self) self = self.
Proof. by destruct self. Qed.

(** Reading the table of a dealer that has one inserts nothing. *)
Lemma dealer_zone_weights_getitem_known self0 name :
  dict_mem name (dealer_zone_weights self0) = true ->
  preserves (fun self => self = self0) (dealer_zone_weights_getitem name).
Proof.
  intros Hmem self ->.
  unfold dealer_zone_weights_getitem, defaultdict_getitem.
  unfold dict_mem in Hmem.
  destruct (dict_lookup name (dealer_zone_weights self0)); [|done].
  apply set_dealer_zone_weights_same.
Qed.

Ltac read_only_step :=
  first [ apply preserves_ret | apply preserves_gets
        | apply preserves_lift | apply preserves_lift_const ].

Lemma predict_read_only self0 n dealer :
  preserves (fun self => self = self0) (predict_next_top_n n dealer).
Proof.
  unfold predict_next_top_n.
  apply preserves_bind; [read_only_step|intros spin_number].
  apply preserves_bind; [read_only_step|intros no_spins].
  destruct no_spins; [read_only_step|].
  apply preserves_bind; [read_only_step|intros freq].
  destruct (list_is_empty freq); [read_only_step|].
  do 8 (apply preserves_bind; [read_only_step|intros ?]).
  eapply hoare_bind.
  { apply (hoare_gets _
      (fun known self => self = self0 /\
         known = match dealer_truthy dealer with
                 | Some name => dict_mem name (dealer_zone_weights self0)
                 | None => false
                 end)).
    intros self ->. done. }
  intros known. apply hoare_assume. intros Hknown.
  apply preserves_bind; [|intros dealer_zone_info].
  { destruct (dealer_truthy dealer) as [name|]; [|read_only_step].
    destruct known; [|read_only_step].
    apply preserves_bind; [|intros c].
    { by apply dealer_zone_weights_getitem_known. }
    apply preserves_bind; [|intros c'; read_only_step].
    by apply dealer_zone_weights_getitem_known. }
  do 2 (apply preserves_bind; [read_only_step|intros ?]).
  apply preserves_bind; [|intros ?; read_only_step].
  destruct dealer; [|read_only_step].
  apply preserves_bind; [read_only_step|intros ?; read_only_step].
Qed.

Lemma predict_state_after self n dealer :
  state_after (predict_next_top_n n dealer) self = self.
Proof.
  by apply (preserves_state_after (fun s => s = self)); [apply predict_read_only|].
Qed.

Lemma predict_wf n dealer : preserves wf (predict_next_top_n n dealer).
Proof.
  intros self Hwf. pose proof (predict_state_after self n dealer) as Hs.
  unfold state_after in Hs.
  destruct (predict_next_top_n n dealer self) as [[r|e] self']; simpl in Hs;
    by subst.
Qed.

Lemma add_spin_wf number dealer : preserves wf (add_spin number dealer).
Proof.
  unfold add_spin.
  apply preserves_bind; [apply apply_decay_wf|intros _].
  apply preserves_bind; [apply preserves_gets|intros spin_number].
  apply preserves_bind;
    [apply preserves_modify; intros; by apply wf_set_spins|intros _].
  apply preserves_bind;
    [apply preserves_modify; intros; by apply wf_set_spin_history|intros _].
  apply preserves_bind; [apply preserves_modify; intros self Hwf|intros _].
  { apply wf_set_number_weights, counter_incr_wf, Hwf; done. }
  apply preserves_bind; [apply preserves_modify; intros self Hwf|intros _].
  { apply wf_set_color_weights, counter_incr_wf, Hwf; done. }
  apply preserves_bind; [|intros _].
  { destruct (zone_truthy _) as [zone|]; [|apply preserves_ret].
    apply preserves_bind; [apply preserves_modify; intros self Hwf|intros _].
    { apply wf_set_zone_weights, counter_incr_wf, Hwf; done. }
    destruct (dealer_truthy _) as [name|]; [|apply preserves_ret].
    eapply hoare_bind; [apply dealer_zone_weights_getitem_wf|].
    intros c. apply hoare_modify. intros self [Hwf Hc].
    apply wf_set_dealer_zone_weights; [done|apply dict_wf_set, Hwf|].
    intros dealer' c'. destruct (decide (name = dealer')) as [<-|Hne].
    - rewrite dict_lookup_set_eq. intros [= <-]. by apply counter_incr_wf.
    - rewrite dict_lookup_set_ne by done. apply Hwf. }
  apply preserves_bind; [apply preserves_gets|intros n].
  destruct (1 <? n); [|apply preserves_ret].
  apply preserves_bind; [apply preserves_lift|intros prev].
  apply preserves_bind; [apply preserves_lift_const|intros dist].
  apply preserves_modify. intros self Hwf.
  apply wf_set_distance_freq, counter_incr_wf, wf_distance_freq; done.
Qed.

Lemma reachable_wf self : reachable self -> wf self.
Proof.
  induction 1 as [max_history dec|self number dealer _ IH|self n dealer _ IH].
  - apply wf_init.
  - by apply preserves_state_after; [apply add_spin_wf|].
  - by apply preserves_state_after; [apply predict_wf|].
Qed.
End TestRouFacts.

(** ** [roulette.py]: [predict_next_top_n] only reads *)

Section RouletteFacts.
Context {W : Type} `{Number W}.
Import roulette.
Implicit Types (self : RoulettePredictor W).

Lemma roulette_predict_read_only self0 n :
  preserves (fun self => self = self0) (predict_next_top_n n).
Proof.
  unfold predict_next_top_n.
  apply preserves_bind; [apply preserves_gets|intros spin_number].
  apply preserves_bind; [apply preserves_gets|intros no_spins].
  destruct no_spins; [apply preserves_ret|].
  apply preserves_bind; [apply preserves_gets|intros freq].
  destruct (list_is_empty freq); [apply preserves_ret|].
  apply preserves_bind; [apply preserves_lift|intros last_number].
  apply preserves_bind; [apply preserves_lift_const|intros last_index].
  apply preserves_bind; [apply preserves_gets|intros freq'].
  apply preserves_bind; [apply preserves_lift_const|intros results].
  apply preserves_ret.
Qed.

Lemma roulette_predict_state_after self n :
  state_after (predict_next_top_n n) self = self.
Proof.
  by apply (preserves_state_after (fun s => s = self));
    [apply roulette_predict_read_only|].
Qed.
End RouletteFacts.

(** ** The claims on [predict_next_top_n] *)

(** C8. On a predictor with no recorded spin, [predict_next_top_n] returns
    the "No spins recorded yet." answer for every [n] and every [dealer],
    and leaves the predictor as it was; so does the [predict_next_top_n] of
    [roulette.py] for every [n]. *)
Theorem predict_no_history {W : Type} `{Number W}
    (self : testRou.RoulettePredictor W) (self' : roulette.RoulettePredictor W)
    (n : Z) (dealer : option string) :
  testRou.spins self = [] ->
  roulette.spins self' = [] ->
  (returned (testRou.predict_next_top_n n dealer) self = Ok testRou.NoSpins /\
   state_after (testRou.predict_next_top_n n dealer) self = self) /\
  (returned (roulette.predict_next_top_n n) self' = Ok roulette.NoSpins /\
   state_after (roulette.predict_next_top_n n) self' = self').
Proof.
  intros Hs Hs'. split; split.
  - unfold testRou.predict_next_top_n, returned, bind, gets, ret.
    cbn [fst snd]. by rewrite Hs.
  - apply predict_state_after.
  - unfold roulette.predict_next_top_n, returned, bind, gets, ret.
    cbn [fst snd]. by rewrite Hs'.
  - apply roulette_predict_state_after.
Qed.

Lemma predict_no_history_witness :
  (returned (testRou.predict_next_top_n 15 (Some "dealer1"%string))
     (testRou.__init__ default_max_history default_decay) = Ok testRou.NoSpins /\
   state_after (testRou.predict_next_top_n 15 (Some "dealer1"%string))
     (testRou.__init__ default_max_history default_decay) = testRou.__init__ default_max_history default_decay) /\
  (returned (roulette.predict_next_top_n 15) (roulette.__init__ (W := float))
     = Ok roulette.NoSpins /\
   state_after (roulette.predict_next_top_n 15) (roulette.__init__ (W := float))
     = roulette.__init__).
Proof.
  apply (predict_no_history (testRou.__init__ default_max_history default_decay) roulette.__init__);
    reflexivity.
Defined.

(** C9. [predict_next_top_n] is read-only: from any predictor, the call
    leaves every table and the history as they were, so that a second call
    with the same arguments returns the same report and again changes
    nothing; in [testRou.py] and in [roulette.py]. *)
Theorem predict_idempotent {W : Type} `{Number W}
    (self : testRou.RoulettePredictor W) (self' : roulette.RoulettePredictor W)
    (n : Z) (dealer : option string) :
  let after1 := state_after (testRou.predict_next_top_n n dealer) self in
  let after2 := state_after (testRou.predict_next_top_n n dealer) after1 in
  let after1' := state_after (roulette.predict_next_top_n n) self' in
  let after2' := state_after (roulette.predict_next_top_n n) after1' in
  (after1 = self /\ after2 = self /\
   returned (testRou.predict_next_top_n n dealer) after1 =
     returned (testRou.predict_next_top_n n dealer) self) /\
  (after1' = self' /\ after2' = self' /\
   returned (roulette.predict_next_top_n n) after1' =
     returned (roulette.predict_next_top_n n) self').
Proof.
  cbv zeta. rewrite !predict_state_after, !roulette_predict_state_after. done.
Qed.

(** ** The distance-based candidates *)

Lemma for_each_Forall2 {A B} (f : A -> result B) l l' :
  for_each f l = Ok l' -> Forall2 (fun a b => f a = Ok b) l l'.
Proof.
  revert l'. induction l as [|a l IH]; intros l'; simpl.
  - intros [= <-]. constructor.
  - destruct (f a) as [b|e] eqn:Hb; simpl; [|done].
    destruct (for_each f l) as [bs|e]; simpl; [|done].
    intros [= <-]. constructor; [done | by apply IH].
Qed.

(** A loop raises only what one round of its body raises. *)
Lemma for_each_Raise {A B} (f : A -> result B) l e :
  for_each f l = Raise e -> exists a, a ∈ l /\ f a = Raise e.
Proof.
  induction l as [|a l IH]; simpl; [done|].
  destruct (f a) as [b|e'] eqn:Hb; simpl.
  - destruct (for_each f l) as [bs|e']; simpl; [done|].
    intros [= <-]. destruct IH as (a' & Hin & Ha'); [done|].
    exists a'. split; [by right | done].
  - intros [= <-]. exists a. split; [by left | done].
Qed.

Lemma list_index_Raise x l e : list_index x l = Raise e -> e = ValueError.
Proof.
  induction l as [|y l IH]; simpl; [by intros [= <-]|].
  destruct (decide (y = x)); [done|].
  destruct (list_index x l); simpl; [done|]. intros [= <-]. by apply IH.
Qed.

Section Candidates.
Context {W : Type} `{Number W}.

Lemma probability_Raise (count total : W) e :
  probability count total = Raise e -> e = ZeroDivisionError.
Proof. unfold probability. destruct (wdiv _ _); [done|]. by intros [= <-]. Qed.

Lemma with_probability_Raise {K} (total : W) (rows : list (K * W)) e :
  testRou.with_probability total rows = Raise e -> e = ZeroDivisionError.
Proof.
  intros Hr. apply for_each_Raise in Hr as ([k count] & _ & Hr).
  destruct (probability count total) eqn:Hp; simpl in Hr; [done|].
  apply probability_Raise in Hp. by simplify_eq.
Qed.

Lemma most_common_length {K} `{EqDecision K} n (c : Counter W K) :
  len (most_common n c) <= Z.max 0 n.
Proof.
  unfold most_common, len. pose proof (firstn_le_length (Z.to_nat n) (sort_by_count c)).
  rewrite length_firstn. lia.
Qed.

Lemma candidate_row direction last_index (total : W) entry row :
  candidate direction last_index total entry = Ok row ->
  row_on_wheel direction last_index row.
Proof.
  unfold candidate. destruct entry as [dist' count].
  destruct (probability count total) as [p|e]; simpl; [|done].
  destruct (list_getitem _ _) as [x|e] eqn:Hx; simpl; [|done].
  intros [= <-]. unfold row_on_wheel.
  pose proof (predicted_index_range direction last_index dist') as Hr.
  unfold predicted_index in Hx, Hr. rewrite len_wheel_sequence in Hx, Hr.
  split; [by destruct direction|]. split; [by destruct direction|].
  by apply list_getitem_elem, wheel_positions in Hx.
Qed.

Lemma candidates_rows_on_wheel direction last_index (total : W) n
    (c : Counter W Z) l :
  for_each (candidate direction last_index total) (most_common n c) = Ok l ->
  Forall (row_on_wheel direction last_index) l /\ len l <= Z.max 0 n.
Proof.
  intros Hl. apply for_each_Forall2 in Hl. split.
  - induction Hl as [|a row l1 l2 Hc _ IH]; constructor; [|done].
    by apply candidate_row in Hc.
  - apply Forall2_length in Hl. unfold len. rewrite <- Hl.
    apply most_common_length.
Qed.

(** The slot is reduced modulo 37: the wheel is never indexed out of
    range. *)
Lemma candidate_no_IndexError direction last_index (total : W) entry :
  candidate direction last_index total entry <> Raise IndexError.
Proof.
  unfold candidate, probability. destruct entry as [dist count].
  destruct (wdiv count total); simpl; [|done].
  destruct (list_getitem_in_range wheel_sequence
              (predicted_index direction last_index dist)) as [x ->];
    [apply predicted_index_range | done].
Qed.

Lemma candidates_no_IndexError direction last_index (total : W) l :
  for_each (candidate direction last_index total) l <> Raise IndexError.
Proof.
  intros Hl. apply for_each_Raise in Hl as (a & _ & Ha).
  by apply candidate_no_IndexError in Ha.
Qed.

Lemma list_getitem_last {A} (l : list A) :
  list_is_empty l = false -> exists a, list_getitem l (-1) = Ok a.
Proof.
  intros Hl. unfold list_getitem. cbn [Z.ltb Z.compare].
  destruct l as [|a0 l]; [done|].
  assert (Hlen : 0 <= len (a0 :: l) + -1) by (unfold len; simpl; lia).
  destruct (len (a0 :: l) + -1 <? 0) eqn:E; [lia|].
  destruct (nth_error _ _) eqn:Hn; [by eexists|].
  apply nth_error_None in Hn. unfold len in *. lia.
Qed.
End Candidates.

(** C10, as the code has it. In [testRou.py] and in [roulette.py], in every
    state, [predict_next_top_n] never raises [IndexError]: each row
    [(number, dist, prob)] of a report's distance-based list was looked up
    at the slot [(last_index + dist) mod 37] or [(last_index - dist) mod 37],
    a slot in [0, 37), of the last number's slot [last_index], and [number]
    is a wheel position in [0, 36]. The list has at most [max(0, n)] rows:
    at most [n] for [n >= 0], and none for a negative [n]. *)
Theorem predictions_valid {W : Type} `{Number W}
    (self : testRou.RoulettePredictor W) (self' : roulette.RoulettePredictor W)
    (n : Z) (dealer : option string) :
  returned (testRou.predict_next_top_n n dealer) self <> Raise IndexError /\
  returned (roulette.predict_next_top_n n) self' <> Raise IndexError /\
  (forall r,
     returned (testRou.predict_next_top_n n dealer) self = Ok (testRou.Report r) ->
     exists last last_index,
       list_getitem (testRou.spins self) (-1) = Ok last /\
       index_on_wheel last.1 = Ok last_index /\
       Forall (row_on_wheel (testRou.report_direction r) last_index)
         (testRou.dist_predictions r) /\
       len (testRou.dist_predictions r) <= Z.max 0 n) /\
  (forall spin_number direction n' results,
     returned (roulette.predict_next_top_n n) self' =
       Ok (roulette.Report spin_number direction n' results) ->
     exists last_number last_index,
       list_getitem (roulette.spins self') (-1) = Ok last_number /\
       index_on_wheel last_number = Ok last_index /\
       Forall (row_on_wheel direction last_index) results /\
       len results <= Z.max 0 n).
Proof.
  split_and!.
  - unfold testRou.predict_next_top_n, testRou.dealer_zone_weights_getitem.
    run_method. intros Hr.
    repeat case_match; cbn [fst] in *; simplify_eq;
      repeat match goal with
        | Hc : list_is_empty ?l = false, Hg : list_getitem ?l (-1) = Raise _ |- _ =>
            apply list_getitem_last in Hc as [? ?]; congruence
        | Hc : index_on_wheel _ = Raise _ |- _ => by apply list_index_Raise in Hc
        | Hc : for_each (candidate _ _ _) _ = Raise _ |- _ =>
            by apply candidates_no_IndexError in Hc
        | Hc : testRou.with_probability _ _ = Raise _ |- _ =>
            by apply with_probability_Raise in Hc
        | Hc : for_each _ _ = Raise _ |- _ =>
            apply for_each_Raise in Hc as ([? ?] & _ & Hc);
            destruct (probability _ _) eqn:Hp; simpl in Hc; [done|];
            by apply probability_Raise in Hp; simplify_eq
        end.
  - unfold roulette.predict_next_top_n.
    unfold state_after, returned, bind, gets, modify, ret, lift; cbn [fst snd].
    intros Hr.
    repeat case_match; cbn [fst] in *; simplify_eq;
      repeat match goal with
        | Hc : list_is_empty ?l = false, Hg : list_getitem ?l (-1) = Raise _ |- _ =>
            apply list_getitem_last in Hc as [? ?]; congruence
        | Hc : index_on_wheel _ = Raise _ |- _ => by apply list_index_Raise in Hc
        | Hc : for_each (candidate _ _ _) _ = Raise _ |- _ =>
            by apply candidates_no_IndexError in Hc
        end.
  - intros r. unfold testRou.predict_next_top_n, testRou.dealer_zone_weights_getitem.
    run_method. intros Hr.
    repeat case_match; cbn [fst] in *; simplify_eq;
      cbn [testRou.dist_predictions testRou.report_direction];
      match goal with
      | Hl : list_getitem _ (-1) = Ok ?last,
        Hi : index_on_wheel _ = Ok ?last_index,
        Hc : for_each (candidate _ _ _) _ = Ok _ |- _ =>
          exists last, last_index;
          apply candidates_rows_on_wheel in Hc as [? ?]; done
      end.
  - intros spin_number direction n' results. unfold roulette.predict_next_top_n.
    unfold state_after, returned, bind, gets, modify, ret, lift; cbn [fst snd].
    intros Hr.
    repeat case_match; cbn [fst] in *; simplify_eq;
      match goal with
      | Hl : list_getitem _ (-1) = Ok ?last,
        Hi : index_on_wheel _ = Ok ?last_index,
        Hc : for_each (candidate _ _ _) _ = Ok _ |- _ =>
          exists last, last_index;
          apply candidates_rows_on_wheel in Hc as [? ?]; done
      end.
Qed.

Lemma predictions_valid_witness :
  (exists last last_index,
     list_getitem (testRou.spins after_0_32_15) (-1) = Ok last /\
     index_on_wheel last.1 = Ok last_index /\
     Forall (row_on_wheel (W := float) (testRou.report_direction report_0_32_15)
               last_index)
       (testRou.dist_predictions report_0_32_15) /\
     len (testRou.dist_predictions report_0_32_15) <= Z.max 0 15) /\
  (exists last_number last_index,
     list_getitem (roulette.spins roulette_after_0_32_15) (-1) = Ok last_number /\
     index_on_wheel last_number = Ok last_index /\
     Forall (row_on_wheel anticlockwise last_index) [(19, 36, 1%float)] /\
     len [(19, 36, 1%float)] <= Z.max 0 15).
Proof.
  destruct (predictions_valid after_0_32_15 roulette_after_0_32_15 15 None)
    as (_ & _ & Ht & Hr).
  split.
  - apply Ht. vm_compute. reflexivity.
  - apply (Hr 4 anticlockwise 15). vm_compute. reflexivity.
Defined.

(** A negative [n] gives a report with an empty distance-based list: zero
    rows, which is more than [n]. After the spins 0, 32, 15, with [n = -1],
    in both scripts. *)
Lemma predictions_more_than_n :
  (exists r,
     returned (testRou.predict_next_top_n (-1) None) after_0_32_15 =
       Ok (testRou.Report r) /\
     testRou.dist_predictions r = [] /\
     ~ (len (testRou.dist_predictions r) <= -1)) /\
  (exists results,
     returned (roulette.predict_next_top_n (-1)) roulette_after_0_32_15 =
       Ok (roulette.Report 4 anticlockwise (-1) results) /\
     results = [] /\
     ~ (len results <= -1)).
Proof.
  split; [|exists []; split_and!; [by vm_compute|done|by vm_compute]].
  exists {| testRou.report_spin_number := testRou.report_spin_number report_0_32_15;
            testRou.report_direction := testRou.report_direction report_0_32_15;
            testRou.dist_predictions := [];
            testRou.hot_numbers := testRou.hot_numbers report_0_32_15;
            testRou.hot_colors := testRou.hot_colors report_0_32_15;
            testRou.hot_zones := testRou.hot_zones report_0_32_15;
            testRou.dealer_zones := testRou.dealer_zones report_0_32_15 |}.
  split; [vm_compute; reflexivity|]. split; [reflexivity|].
  cbn [testRou.dist_predictions]. unfold len. simpl. lia.
Qed.

(** ** The two scenarios *)

(** C1, as the code has it. From a fresh predictor with [decay=1.0], after
    [add_spin(0)] and [add_spin(32)]: spin #2 is anticlockwise; the
    anticlockwise table holds exactly one entry, the distance
    [distance_anticlockwise(0, 32)], which is 36 (slot 0 minus slot 1,
    modulo 37), with count 1; the clockwise table is empty, and
    [predict_next_top_n] (spin #3, clockwise) answers "No distance data"
    for every [n] and [dealer]. *)
Theorem scenario_0_32 :
  returned (testRou.add_spin 0 None) (fresh no_decay) = Ok tt /\
  returned (testRou.add_spin 32 None)
    (state_after (testRou.add_spin 0 None) (fresh no_decay)) = Ok tt /\
  get_spin_direction 2 = anticlockwise /\
  distance_anticlockwise 0 32 = Ok 36 /\
  testRou.distance_freq after_0_32 anticlockwise = [(36, 1%float)] /\
  testRou.distance_freq after_0_32 clockwise = [] /\
  get_spin_direction (len (testRou.spins after_0_32) + 1) = clockwise /\
  forall n dealer,
    returned (testRou.predict_next_top_n n dealer) after_0_32 =
      Ok (testRou.NoDistanceData clockwise).
Proof. split_and!; intros; vm_compute; reflexivity. Qed.

(** The distance recorded at spin #2 is not 1: the claim of C1 fails. *)
Lemma scenario_0_32_distance_not_1 :
  ~ (distance_anticlockwise 0 32 = Ok 1 /\
     testRou.distance_freq after_0_32 anticlockwise = [(1, 1%float)]).
Proof. intros [Hd _]. vm_compute in Hd. discriminate Hd. Qed.

(** C6. From a fresh predictor with [decay=1.0], after [add_spin] on 0, 32,
    15: spin #3 is clockwise and [distance_clockwise(32, 15)] is in the
    clockwise table; the anticlockwise table still holds the one entry of
    spin #2; [predict_next_top_n] (spin #4, anticlockwise) returns one
    distance-based candidate, with probability 1.0, the number reached from
    15 by that distance anticlockwise, whatever the clockwise table holds. *)
Theorem scenario_0_32_15 :
  get_spin_direction 3 = clockwise /\
  (exists dist,
     distance_clockwise 32 15 = Ok dist /\
     testRou.distance_freq after_0_32_15 clockwise = [(dist, 1%float)]) /\
  testRou.distance_freq after_0_32_15 anticlockwise =
    testRou.distance_freq after_0_32 anticlockwise /\
  get_spin_direction (len (testRou.spins after_0_32_15) + 1) = anticlockwise /\
  forall table : Counter float Z,
    exists r last_index dist number,
      returned (testRou.predict_next_top_n 15 None)
        (testRou.set_distance_freq clockwise table after_0_32_15) =
        Ok (testRou.Report r) /\
      testRou.report_direction r = anticlockwise /\
      testRou.report_spin_number r = 4 /\
      testRou.distance_freq after_0_32_15 anticlockwise = [(dist, 1%float)] /\
      index_on_wheel 15 = Ok last_index /\
      list_getitem wheel_sequence
        (predicted_index anticlockwise last_index dist) = Ok number /\
      testRou.dist_predictions r = [(number, dist, 1%float)].
Proof.
  split; [reflexivity|]. split; [exists 1; split; reflexivity|].
  split; [reflexivity|]. split; [reflexivity|].
  intros table.
  exists report_0_32_15, 2, 36, 19.
  split_and!; vm_compute; reflexivity.
Qed.

(** ** The decay pass *)

Section Decay.
Context {W : Type} `{Number W}.
Import testRou.
Implicit Types (self : RoulettePredictor W) (dec : W).

Lemma decay_counter_decayed_from {K} `{EqDecision K} dec (c : Counter W K) :
  dict_wf c -> decayed_from dec c (decay_counter dec c).
Proof.
  intros Hwf. split.
  - intros k w'. rewrite decay_counter_lookup by done.
    destruct (dict_lookup k c) as [w|]; [|done]. unfold decay_weight.
    destruct (wlt (wmul w dec) prune_eps) eqn:E; [done|].
    intros [= <-]. by exists w.
  - intros k w Hk Hw. rewrite decay_counter_lookup, Hk by done.
    unfold decay_weight. by rewrite Hw.
Qed.

Lemma reachable_add_spins self l :
  reachable self -> reachable (add_spins l self).
Proof.
  revert self. induction l as [|[number dealer] l IH]; intros self Hr; [done|].
  apply IH. by constructor.
Qed.
End Decay.

(** C4. One decay pass ([_apply_decay], which every [add_spin] starts with)
    over a predictor with decay factor [d]: in the two distance tables, the
    number, color and zone tables and the table of every dealer, each entry
    that is left has its former weight multiplied by [d], and no entry left
    is below [1e-6]. (Entries not below [1e-6] after the multiplication are
    all left; a dealer is left only with a table decayed from its former
    one.) *)
Theorem apply_decay_entries {W : Type} `{Number W}
    (self : testRou.RoulettePredictor W) :
  testRou.wf self ->
  let d := testRou.decay self in
  let self' := state_after testRou._apply_decay self in
  returned testRou._apply_decay self = Ok tt /\
  decayed_from d (testRou.distance_freq self clockwise)
                 (testRou.distance_freq self' clockwise) /\
  decayed_from d (testRou.distance_freq self anticlockwise)
                 (testRou.distance_freq self' anticlockwise) /\
  decayed_from d (testRou.number_weights self) (testRou.number_weights self') /\
  decayed_from d (testRou.color_weights self) (testRou.color_weights self') /\
  decayed_from d (testRou.zone_weights self) (testRou.zone_weights self') /\
  forall dealer c',
    dict_lookup dealer (testRou.dealer_zone_weights self') = Some c' ->
    exists c,
      dict_lookup dealer (testRou.dealer_zone_weights self) = Some c /\
      decayed_from d c c'.
Proof.
  intros Hwf d self'. split; [reflexivity|].
  repeat split; try (apply decay_counter_decayed_from, Hwf).
  intros dealer c'. subst self'.
  change (testRou.dealer_zone_weights (state_after testRou._apply_decay self))
    with (testRou.decay_dealers d (testRou.dealer_zone_weights self)).
  rewrite decay_dealers_lookup by apply Hwf.
  destruct (dict_lookup dealer _) as [c|] eqn:E; [|done].
  unfold testRou.decay_table. destruct (list_is_empty _); [done|].
  intros [= <-]. exists c. split; [done|].
  apply decay_counter_decayed_from. by eapply testRou.wf_dealer.
Qed.

Lemma apply_decay_entries_witness :
  let self := after_two_dealers in
  let d := testRou.decay self in
  let self' := state_after testRou._apply_decay self in
  returned testRou._apply_decay self = Ok tt /\
  decayed_from d (testRou.distance_freq self clockwise)
                 (testRou.distance_freq self' clockwise) /\
  decayed_from d (testRou.distance_freq self anticlockwise)
                 (testRou.distance_freq self' anticlockwise) /\
  decayed_from d (testRou.number_weights self) (testRou.number_weights self') /\
  decayed_from d (testRou.color_weights self) (testRou.color_weights self') /\
  decayed_from d (testRou.zone_weights self) (testRou.zone_weights self') /\
  forall dealer c',
    dict_lookup dealer (testRou.dealer_zone_weights self') = Some c' ->
    exists c,
      dict_lookup dealer (testRou.dealer_zone_weights self) = Some c /\
      decayed_from d c c'.
Proof.
  apply (apply_decay_entries after_two_dealers).
  apply reachable_wf, reachable_add_spins, testRou.reachable_init.
Defined.

(** ** What [add_spin] leaves in the tables *)

Section AddSpin.
Context {W : Type} `{Number W}.
Import testRou.
Implicit Types (self : RoulettePredictor W) (dec : W).

Ltac keep :=
  first [ apply hoare_ret | apply hoare_gets | apply hoare_modify ];
  intros ? HI; exact HI.

Ltac keep_bind :=
  lazymatch goal with
  | |- hoare ?P (bind _ _) _ _ =>
      apply (hoare_bind P (fun _ => P)); [|intros ?]
  end.

Lemma add_spin_recorded self0 number dealer :
  hoare (fun self => self = self0) (add_spin number dealer)
    (fun _ => recorded self0 number dealer) (recorded self0 number dealer).
Proof.
  unfold add_spin, recorded, dealers_after.
  eapply hoare_bind.
  { instantiate (1 := fun _ self =>
      decay self = decay self0 /\
      max_history self = max_history self0 /\
      spins self = spins self0 /\
      spin_history self = spin_history self0 /\
      number_weights self = decay_counter (decay self0) (number_weights self0) /\
      color_weights self = decay_counter (decay self0) (color_weights self0) /\
      dealer_zone_weights self =
        decay_dealers (decay self0) (dealer_zone_weights self0)).
    intros self Heq. rewrite Heq. repeat split. }
  intros ?. keep_bind; [keep|].
  eapply hoare_bind.
  { instantiate (1 := fun _ self =>
      decay self = decay self0 /\
      max_history self = max_history self0 /\
      spins self = spins self0 ++ [(number, dealer)] /\
      spin_history self = spin_history self0 /\
      number_weights self = decay_counter (decay self0) (number_weights self0) /\
      color_weights self = decay_counter (decay self0) (color_weights self0) /\
      dealer_zone_weights self =
        decay_dealers (decay self0) (dealer_zone_weights self0)).
    apply hoare_modify. intros self (Hd & Hm & Hs & Hh & Hn & Hc & Hz).
    run_method. by rewrite Hs. }
  intros ?. eapply hoare_bind.
  { instantiate (1 := fun _ self =>
      decay self = decay self0 /\
      max_history self = max_history self0 /\
      spins self = spins self0 ++ [(number, dealer)] /\
      spin_history self =
        deque_append (max_history self0) (number, dealer) (spin_history self0) /\
      number_weights self = decay_counter (decay self0) (number_weights self0) /\
      color_weights self = decay_counter (decay self0) (color_weights self0) /\
      dealer_zone_weights self =
        decay_dealers (decay self0) (dealer_zone_weights self0)).
    apply hoare_modify. intros self (Hd & Hm & Hs & Hh & Hn & Hc & Hz).
    run_method. by rewrite Hm, Hh. }
  intros ?. eapply hoare_bind.
  { instantiate (1 := fun _ self =>
      decay self = decay self0 /\
      max_history self = max_history self0 /\
      spins self = spins self0 ++ [(number, dealer)] /\
      spin_history self =
        deque_append (max_history self0) (number, dealer) (spin_history self0) /\
      number_weights self =
        counter_incr number
          (decay_counter (decay self0) (number_weights self0)) /\
      color_weights self = decay_counter (decay self0) (color_weights self0) /\
      dealer_zone_weights self =
        decay_dealers (decay self0) (dealer_zone_weights self0)).
    apply hoare_modify. intros self (Hd & Hm & Hs & Hh & Hn & Hc & Hz).
    run_method. by rewrite Hn. }
  intros ?. eapply hoare_bind.
  { instantiate (1 := fun _ self =>
      decay self = decay self0 /\
      max_history self = max_history self0 /\
      spins self = spins self0 ++ [(number, dealer)] /\
      spin_history self =
        deque_append (max_history self0) (number, dealer) (spin_history self0) /\
      number_weights self =
        counter_incr number
          (decay_counter (decay self0) (number_weights self0)) /\
      color_weights self =
        counter_incr (get_color number)
          (decay_counter (decay self0) (color_weights self0)) /\
      dealer_zone_weights self =
        decay_dealers (decay self0) (dealer_zone_weights self0)).
    apply hoare_modify. intros self (Hd & Hm & Hs & Hh & Hn & Hc & Hz).
    run_method. by rewrite Hc. }
  intros ?. eapply hoare_bind.
  { instantiate (1 := fun _ => recorded self0 number dealer).
    unfold recorded, dealers_after.
    destruct (zone_truthy (find_zone number)) as [zone|]; [|keep].
    keep_bind; [keep|].
    destruct (dealer_truthy dealer) as [name|]; [|keep].
    intros self (Hd & Hm & Hs & Hh & Hn & Hc & Hz).
    unfold bind, dealer_zone_weights_getitem, modify. rewrite Hz.
    destruct (defaultdict_getitem _ _ _) as [c dd'].
    by run_method. }
  intros ?. unfold recorded, dealers_after.
  keep_bind; [keep|].
  match goal with |- hoare _ (if ?b then _ else _) _ _ => destruct b end;
    [|keep].
  keep_bind;
    [apply hoare_lift; [intros ? ? HI _; exact HI|intros ? ? HI _; exact HI]|].
  keep_bind;
    [apply (hoare_lift _ _ _ (fun _ => _));
       [intros ? ? HI _; exact HI|intros ? ? HI _; exact HI]|].
  apply hoare_modify. intros self HI. by destruct (get_spin_direction _).
Qed.

Lemma add_spin_state_after self number dealer :
  recorded self number dealer (state_after (add_spin number dealer) self).
Proof.
  pose proof (add_spin_recorded self number dealer self eq_refl) as Hh.
  unfold state_after. by destruct (add_spin number dealer self) as [[[]|e] self'].
Qed.
End AddSpin.

(** ** The dealer tables *)

Section Dealers.
Context {W : Type} `{Number W}.
Import testRou.
Implicit Types (self : RoulettePredictor W) (dec : W).

Lemma add_spin_dealer_zone_weights self number dealer :
  dealer_zone_weights (state_after (add_spin number dealer) self) =
    dealers_after number dealer
      (decay_dealers (decay self) (dealer_zone_weights self)).
Proof. apply add_spin_state_after. Qed.

Lemma apply_decay_dealer_zone_weights self :
  dealer_zone_weights (state_after _apply_decay self) =
    decay_dealers (decay self) (dealer_zone_weights self).
Proof. reflexivity. Qed.

(** [add_spin] touches the table of no dealer but the one of the spin,
    beyond the decay. *)
Lemma add_spin_lookup_other self number dealer other :
  dealer_truthy dealer <> Some other ->
  dict_lookup other (dealer_zone_weights (state_after (add_spin number dealer) self)) =
    dict_lookup other (decay_dealers (decay self) (dealer_zone_weights self)).
Proof.
  intros Hne. rewrite add_spin_dealer_zone_weights. unfold dealers_after.
  destruct (zone_truthy _) as [zone|]; [|done].
  destruct (dealer_truthy dealer) as [name|]; [|done].
  assert (name <> other) by congruence.
  unfold defaultdict_getitem.
  destruct (dict_lookup name (decay_dealers _ _)); cbv beta iota.
  - by rewrite dict_lookup_set_ne.
  - by rewrite !dict_lookup_set_ne.
Qed.

(** [add_spin] leaves the dealer of the spin with a table. *)
Lemma add_spin_lookup_dealer self number dealer name zone :
  zone_truthy (find_zone number) = Some zone ->
  dealer_truthy dealer = Some name ->
  exists c,
    dict_lookup name (dealer_zone_weights (state_after (add_spin number dealer) self))
      = Some c /\
    is_Some (dict_lookup zone c).
Proof.
  intros Hz Hd. rewrite add_spin_dealer_zone_weights. unfold dealers_after.
  rewrite Hz, Hd. unfold defaultdict_getitem.
  destruct (dict_lookup name (decay_dealers _ _)) as [c|]; cbv beta iota;
    rewrite dict_lookup_set_eq; eexists; (split; [done|]);
    rewrite counter_incr_lookup_eq; by eexists.
Qed.

Lemma find_zone_valid number :
  0 <= number <= 36 -> exists zone, zone_truthy (find_zone number) = Some zone.
Proof.
  intros Hn. apply wheel_positions in Hn. unfold wheel_sequence in Hn.
  repeat (apply elem_of_cons in Hn as [->|Hn]; [by eexists|]).
  by apply elem_of_nil in Hn.
Qed.

(** A dealer keeps its table through a decay pass exactly when one of its
    weights is not below [1e-6] after the multiplication. *)
Lemma decay_table_is_Some dec (c : Counter W Z) :
  dict_wf c ->
  is_Some (decay_table dec c) <->
  exists zone w,
    dict_lookup zone c = Some w /\ wlt (wmul w dec) prune_eps = false.
Proof.
  intros Hwf. destruct (decay_counter_decayed_from dec c Hwf) as [Hleft Hkept].
  unfold decay_table. split.
  - destruct (decay_counter dec c) as [|[zone w'] c'] eqn:E; simpl.
    + by intros [? [=]].
    + intros _. destruct (Hleft zone w') as (w & Hw & -> & Hlt).
      { simpl. by rewrite decide_True. }
      by exists zone, w.
  - intros (zone & w & Hw & Hlt). specialize (Hkept zone w Hw Hlt).
    destruct (decay_counter dec c); [done | by eexists].
Qed.

Lemma dict_mem_is_Some {K V} `{EqDecision K} (k : K) (d : dict K V) :
  dict_mem k d = true <-> is_Some (dict_lookup k d).
Proof.
  unfold dict_mem. destruct (dict_lookup k d); split; try done.
Qed.
End Dealers.

(** C3, as the code has it. [add_spin] with dealer [A] changes the table of
    another dealer [B] by the decay pass alone (the weights are multiplied
    by the decay factor, entries below [1e-6] dropped, and the table with
    its last entry): [B]'s table is then what [_apply_decay] leaves of it,
    the zone of the spin being counted for [A] only. [predict_next_top_n]
    with no dealer returns the same whatever the dealer tables hold. *)
Theorem dealer_isolation {W : Type} `{Number W}
    (self : testRou.RoulettePredictor W) (number : Z) (A B : string) :
  testRou.wf self ->
  B <> A ->
  let after := state_after (testRou.add_spin number (Some A)) self in
  dict_lookup B (testRou.dealer_zone_weights after) =
    dict_lookup B (testRou.dealer_zone_weights
                     (state_after testRou._apply_decay self)) /\
  dict_lookup B (testRou.dealer_zone_weights after) =
    match dict_lookup B (testRou.dealer_zone_weights self) with
    | Some c => testRou.decay_table (testRou.decay self) c
    | None => None
    end /\
  forall (n : Z) (tables : dict string (Counter W Z)),
    returned (testRou.predict_next_top_n n None)
      (testRou.set_dealer_zone_weights tables self) =
    returned (testRou.predict_next_top_n n None) self.
Proof.
  intros Hwf Hne after. subst after.
  assert (Hother : dealer_truthy (Some A) <> Some B).
  { unfold dealer_truthy. destruct (decide _); congruence. }
  split; [|split].
  - by rewrite add_spin_lookup_other.
  - rewrite add_spin_lookup_other by done.
    apply decay_dealers_lookup, Hwf.
  - intros n tables. unfold testRou.predict_next_top_n. run_method.
    destruct (list_is_empty (testRou.spins self)); [reflexivity|].
    destruct (list_is_empty _); [reflexivity|].
    cbn [dealer_truthy]. run_method. repeat case_match; reflexivity.
Qed.

Lemma dealer_isolation_witness :
  let self := after_two_dealers in
  let after := state_after (testRou.add_spin 0 (Some "A"%string)) self in
  dict_lookup "B"%string (testRou.dealer_zone_weights after) =
    dict_lookup "B"%string (testRou.dealer_zone_weights
                     (state_after testRou._apply_decay self)) /\
  dict_lookup "B"%string (testRou.dealer_zone_weights after) =
    match dict_lookup "B"%string (testRou.dealer_zone_weights self) with
    | Some c => testRou.decay_table (testRou.decay self) c
    | None => None
    end /\
  forall (n : Z) (tables : dict string (Counter float Z)),
    returned (testRou.predict_next_top_n n None)
      (testRou.set_dealer_zone_weights tables self) =
    returned (testRou.predict_next_top_n n None) self.
Proof.
  apply (dealer_isolation after_two_dealers 0 "A"%string "B"%string).
  - apply reachable_wf, reachable_add_spins, testRou.reachable_init.
  - intros Heq. discriminate Heq.
Defined.

(** Recording a spin with dealer "A" multiplies the zone weight of dealer
    "B" by the decay factor: the claim of C3 fails. *)
Lemma add_spin_alters_other_dealer :
  dict_lookup "B"%string
    (testRou.dealer_zone_weights
       (state_after (testRou.add_spin 0 (Some "A"%string)) after_two_dealers)) <>
  dict_lookup "B"%string (testRou.dealer_zone_weights after_two_dealers).
Proof.
  intros Heq.
  apply (f_equal (fun o => match o with
                           | Some [(_, w)] => PrimFloat.ltb w 1%float
                           | _ => false
                           end)) in Heq.
  vm_compute in Heq. discriminate Heq.
Qed.

(** C2, as the code has it. The dealer-to-table mapping does not only
    grow: [predict_next_top_n] leaves it as it is, and [add_spin] of a
    position in [0, 36] leaves the dealer of the spin with a table, but the
    decay pass of [add_spin] drops the table of any other dealer once all
    its weights are below [1e-6] after the multiplication; a dealer seen
    before keeps its table exactly when one of its weights is not. *)
Theorem dealer_table_lifetime {W : Type} `{Number W}
    (self : testRou.RoulettePredictor W) (number : Z) (dealer : option string)
    (n : Z) (dealer' : option string) (name : string) :
  testRou.wf self ->
  0 <= number <= 36 ->
  let after := state_after (testRou.add_spin number dealer) self in
  testRou.dealer_zone_weights
    (state_after (testRou.predict_next_top_n n dealer') self) =
    testRou.dealer_zone_weights self /\
  (dealer_truthy dealer = Some name ->
   dict_mem name (testRou.dealer_zone_weights after) = true) /\
  (dealer_truthy dealer <> Some name ->
   dict_mem name (testRou.dealer_zone_weights after) = true <->
   exists c zone w,
     dict_lookup name (testRou.dealer_zone_weights self) = Some c /\
     dict_lookup zone c = Some w /\
     wlt (wmul w (testRou.decay self)) prune_eps = false).
Proof.
  intros Hwf Hnumber after. subst after. split; [|split].
  - by rewrite predict_state_after.
  - intros Hname. destruct (find_zone_valid number Hnumber) as [zone Hzone].
    destruct (add_spin_lookup_dealer self number dealer name zone Hzone Hname)
      as (c & Hc & _).
    apply dict_mem_is_Some. by eexists.
  - intros Hname. rewrite dict_mem_is_Some, add_spin_lookup_other by done.
    rewrite decay_dealers_lookup by apply Hwf.
    destruct (dict_lookup name (testRou.dealer_zone_weights self)) as [c|] eqn:Hc.
    + rewrite decay_table_is_Some by (by eapply testRou.wf_dealer).
      split.
      * intros (zone & w & ? & ?). by exists c, zone, w.
      * intros (c0 & zone & w & [= <-] & ? & ?). by exists zone, w.
    + split; [by intros [? [=]] | by intros (c0 & ? & ? & [=] & _)].
Qed.

Lemma dealer_table_lifetime_witness :
  let self := after_two_dealers in
  let after := state_after (testRou.add_spin 0 (Some "A"%string)) self in
  testRou.dealer_zone_weights
    (state_after (testRou.predict_next_top_n 15 None) self) =
    testRou.dealer_zone_weights self /\
  (dealer_truthy (Some "A"%string) = Some "B"%string ->
   dict_mem "B"%string (testRou.dealer_zone_weights after) = true) /\
  (dealer_truthy (Some "A"%string) <> Some "B"%string ->
   dict_mem "B"%string (testRou.dealer_zone_weights after) = true <->
   exists c zone w,
     dict_lookup "B"%string (testRou.dealer_zone_weights self) = Some c /\
     dict_lookup zone c = Some w /\
     wlt (wmul w (testRou.decay self)) prune_eps = false).
Proof.
  apply (dealer_table_lifetime after_two_dealers 0 (Some "A"%string) 15 None
           "B"%string).
  - apply reachable_wf, reachable_add_spins, testRou.reachable_init.
  - lia.
Defined.

(** With the default decay 0.9, the table of a dealer seen once is gone 132
    spins later (0.9^132 < 1e-6): the claim of C2 fails. *)
Lemma dealer_forgotten :
  dict_mem "A"%string
    (testRou.dealer_zone_weights
       (state_after (testRou.add_spin 0 (Some "A"%string)) (fresh default_decay)))
    = true /\
  dict_mem "A"%string (testRou.dealer_zone_weights after_dealer_then_132) = false.
Proof. split; vm_compute; reflexivity. Qed.

(** ** The weight law *)

Section WeightedCount.
Local Open Scope Qc_scope.

Lemma Qc_ltb_ge (x y : Qc) : y <= x -> Qc_ltb x y = false.
Proof.
  intros Hle. unfold Qc_ltb. destruct (x ?= y) eqn:E; try done.
  apply Qclt_alt in E. by apply Qcle_not_lt in Hle.
Qed.

Lemma weighted_count_snoc d l number dealer pos :
  weighted_count d (l ++ [(number, dealer)]) pos =
    d * weighted_count d l pos + (if decide (number = pos) then 1 else 0).
Proof.
  induction l as [|[n0 d0] l IH]; simpl.
  - destruct (decide (number = pos)); ring.
  - rewrite IH, length_app. simpl length.
    replace (length l + 1)%nat with (S (length l)) by lia. simpl Qcpower.
    destruct (decide (n0 = pos)); ring.
Qed.
End WeightedCount.

Section LawRun.
Context {W : Type} `{Number W}.
Import testRou.

Lemma add_spins_snoc l number dealer (self : RoulettePredictor W) :
  add_spins (l ++ [(number, dealer)]) self =
    state_after (add_spin number dealer) (add_spins l self).
Proof. unfold add_spins. by rewrite fold_left_app. Qed.

Lemma law_weight_snoc (d : W) pos l number dealer :
  law_weight d pos (l ++ [(number, dealer)]) =
    law_step d pos (law_weight d pos l) number.
Proof. unfold law_weight. by rewrite fold_left_app. Qed.


End LawRun.

(** ** The law without rounding and pruning *)

Section LawExact.
Local Open Scope Qc_scope.

Variable d : Qc.
Hypothesis d_nonneg : 0 <= d.

(** No weight recorded within [N] calls can have decayed below [1e-6]. *)
Variable N : nat.
Hypothesis not_pruned : forall j, (j < N)%nat -> prune_eps <= d ^ j.

(** Computed in the rationals, and as long as nothing is pruned, the law
    gives the sum of [d ^ (N - i)] over the calls [i] that recorded the
    position. *)
Lemma law_weight_exact l pos :
  (length l <= N)%nat ->
  match law_weight d pos l with
  | Some w =>
      w = weighted_count d l pos /\
      exists j, (j < length l)%nat /\ d ^ j <= w
  | None => weighted_count d l pos = 0
  end.
Proof.
  induction l as [|[number dealer] l IH] using rev_ind; intros Hlen; [done|].
  rewrite length_app in Hlen. simpl in Hlen.
  specialize (IH ltac:(lia)).
  rewrite law_weight_snoc, weighted_count_snoc, length_app. simpl length.
  unfold law_step.
  assert (Hdecayed :
    match law_weight d pos l with
    | Some w => decay_weight d w
    | None => None
    end =
    match law_weight d pos l with
    | Some w => Some (w * d)
    | None => None
    end).
  { destruct (law_weight d pos l) as [w|]; [|done].
    destruct IH as (_ & j & Hj & Hw).
    unfold decay_weight. cbn [wlt wmul exact].
    rewrite Qc_ltb_ge; [done|].
    apply Qcle_trans with (d ^ S j); [apply not_pruned; lia|].
    simpl. rewrite Qcmult_comm. by apply Qcmult_le_compat_r. }
  rewrite Hdecayed.
  destruct (decide (number = pos)) as [->|Hne].
  - cbn [wadd of_int exact].
    change (Q2Qc (inject_Z 1)) with (Q2Qc 1).
    change (Q2Qc (inject_Z 0)) with (Q2Qc 0).
    destruct (law_weight d pos l) as [w|]; unfold default; cbn [from_option id].
    + destruct IH as (-> & j & Hj & Hw). split; [ring|].
      exists 0%nat. split; [lia|]. simpl.
      rewrite <- (Qcplus_0_l 1) at 1. apply Qcplus_le_compat; [|apply Qcle_refl].
      rewrite <- (Qcmult_0_l d). apply Qcmult_le_compat_r; [|done].
      apply Qcle_trans with (d ^ j); [by apply Qcpower_pos | done].
    + rewrite IH. split; [ring|].
      exists 0%nat. split; [lia|]. simpl.
      rewrite Qcplus_0_l. apply Qcle_refl.
  - destruct (law_weight d pos l) as [w|].
    + destruct IH as (-> & j & Hj & Hw). split; [ring|].
      exists (S j). split; [lia|]. simpl.
      rewrite Qcmult_comm. by apply Qcmult_le_compat_r.
    + rewrite IH. ring.
Qed.
End LawExact.

(** ** The same scenario in binary64 *)

Section Float64Scenario.
Import testRou.




End Float64Scenario.

(** Two runs with the default decay in binary64. A weight that was pruned
    starts again from 1: after a spin on 17, 132 spins on 0 and another on
    17, the weight of 17 is 1. A weight recorded late is decayed by the
    later calls only: 17 recorded as spin 196 of 201 has been multiplied
    five times by 0.9. *)
Lemma law_weight_pruned_and_late :
  dict_lookup 17
    (testRou.number_weights
       (testRou.add_spins
          ((17, None) :: repeat (0, None) 132 ++ [(17, None)])
          (fresh default_decay))) = Some 1%float /\
  dict_lookup 17
    (testRou.number_weights
       (testRou.add_spins
          (repeat (0, None) 195 ++ (17, None) :: repeat (0, None) 5)
          (fresh default_decay))) = Some 0x1.2e54b48d3ae6ap-1%float.
Proof. split; by vm_compute. Qed.




(** ** More on the wheel *)

(** Case analysis over the 37 positions of the wheel. *)
Ltac each_position n :=
  let Hin := fresh "Hin" in
  assert (Hin : n ∈ wheel_sequence) by (apply wheel_positions; lia);
  unfold wheel_sequence in Hin;
  repeat (apply elem_of_cons in Hin as [->|Hin]);
  [..|by apply elem_of_nil in Hin].

Lemma list_index_not_elem x l : x ∉ l -> list_index x l = Raise ValueError.
Proof.
  induction l as [|y l IH]; simpl; [done|].
  intros Hn. apply not_elem_of_cons in Hn as [Hne Hn].
  rewrite decide_False by done. by rewrite IH.
Qed.

Lemma list_getitem_nth {A} (l : list A) i a :
  0 <= i -> nth_error l (Z.to_nat i) = Some a -> list_getitem l i = Ok a.
Proof.
  intros Hi Hn. unfold list_getitem.
  destruct (i <? 0) eqn:E; [lia|]. rewrite E. by rewrite Hn.
Qed.

(** X1. [index_on_wheel] and the lookup in [wheel_sequence] are inverse
    bijections between the positions 0..36 and the slots 0..36, and
    [index_on_wheel] raises [ValueError] on every other number. *)
Theorem wheel_bijection (p i q : Z) :
  0 <= p <= 36 -> 0 <= i < 37 -> ~ (0 <= q <= 36) ->
  (exists j, index_on_wheel p = Ok j /\ 0 <= j < 37 /\
             list_getitem wheel_sequence j = Ok p) /\
  (exists p', list_getitem wheel_sequence i = Ok p' /\ 0 <= p' <= 36 /\
              index_on_wheel p' = Ok i) /\
  index_on_wheel q = Raise ValueError.
Proof.
  intros Hp Hi Hq. split; [|split].
  - destruct (index_on_wheel_valid p Hp) as (j & Hj & Hjr).
    exists j. split; [done|]. split; [done|].
    apply list_index_spec in Hj as [? Hn]. by apply list_getitem_nth; [lia|].
  - assert (Hc : exists k : nat, i = Z.of_nat k /\ (k < 37)%nat)
      by (exists (Z.to_nat i); lia).
    destruct Hc as (k & -> & Hk).
    do 37 (destruct k as [|k];
           [eexists; split; [reflexivity|]; split; [lia|reflexivity]|]).
    lia.
  - apply list_index_not_elem. by rewrite wheel_positions.
Qed.

Lemma wheel_bijection_witness :
  (exists j, index_on_wheel 17 = Ok j /\ 0 <= j < 37 /\
             list_getitem wheel_sequence j = Ok 17) /\
  (exists p', list_getitem wheel_sequence 8 = Ok p' /\ 0 <= p' <= 36 /\
              index_on_wheel p' = Ok 8) /\
  index_on_wheel 37 = Raise ValueError.
Proof. apply (wheel_bijection 17 8 37); lia. Defined.

(** X2. The slot [predict_next_top_n] computes from the last number and a
    distance inverts the distance [add_spin] records: from [a], the
    clockwise distance to [b] leads clockwise to [b], and the anticlockwise
    distance leads anticlockwise to [b]. *)
Theorem predicted_index_inverts_distance (a b : Z) :
  0 <= a <= 36 -> 0 <= b <= 36 ->
  exists last_index cw acw,
    index_on_wheel a = Ok last_index /\
    distance_clockwise a b = Ok cw /\
    distance_anticlockwise a b = Ok acw /\
    list_getitem wheel_sequence (predicted_index clockwise last_index cw) = Ok b /\
    list_getitem wheel_sequence (predicted_index anticlockwise last_index acw)
      = Ok b.
Proof.
  intros Ha Hb.
  destruct (index_on_wheel_valid a Ha) as (i & Hi & Hir).
  destruct (index_on_wheel_valid b Hb) as (j & Hj & Hjr).
  exists i, ((j - i) mod 37), ((i - j) mod 37).
  unfold distance_clockwise, distance_anticlockwise.
  rewrite Hi, Hj. cbn [result_bind]. rewrite len_wheel_sequence.
  split_and!; try done.
  - cbn [predicted_index]. rewrite len_wheel_sequence.
    rewrite Zplus_mod_idemp_r. replace (i + (j - i)) with j by lia.
    rewrite Z.mod_small by lia.
    apply list_index_spec in Hj as [? Hn]. by apply list_getitem_nth; [lia|].
  - cbn [predicted_index]. rewrite len_wheel_sequence.
    rewrite Zminus_mod_idemp_r. replace (i - (i - j)) with j by lia.
    rewrite Z.mod_small by lia.
    apply list_index_spec in Hj as [? Hn]. by apply list_getitem_nth; [lia|].
Qed.

Lemma predicted_index_inverts_distance_witness :
  exists last_index cw acw,
    index_on_wheel 0 = Ok last_index /\
    distance_clockwise 0 32 = Ok cw /\
    distance_anticlockwise 0 32 = Ok acw /\
    list_getitem wheel_sequence (predicted_index clockwise last_index cw) = Ok 32 /\
    list_getitem wheel_sequence (predicted_index anticlockwise last_index acw)
      = Ok 32.
Proof. apply (predicted_index_inverts_distance 0 32); lia. Defined.

Lemma member_outside (x : Z) (s : list Z) :
  Forall (fun y => y <> x) s -> member x s = false.
Proof.
  induction 1 as [|y s Hne _ IH]; simpl; [done|].
  rewrite IH, orb_false_r. apply Z.eqb_neq. congruence.
Qed.

Lemma get_color_known number : 0 <= number <= 36 -> get_color number <> unknown.
Proof. intros Hn. each_position number; by vm_compute. Qed.

(** X3. [get_color] is green on 0 only, red or black on the 36 other
    positions, 18 of each, and "unknown" exactly outside 0..36. *)
Theorem get_color_classes (number : Z) :
  (get_color number = green <-> number = 0) /\
  (get_color number = unknown <-> ~ (0 <= number <= 36)) /\
  length (filter (fun p => get_color p = red) wheel_sequence) = 18%nat /\
  length (filter (fun p => get_color p = black) wheel_sequence) = 18%nat.
Proof.
  split_and!; [| |reflexivity|reflexivity].
  - split; [|by intros ->].
    unfold get_color. destruct (number =? 0) eqn:E; [lia|].
    by repeat case_match.
  - split.
    + intros Hc Hr. by apply get_color_known in Hr.
    + intros Hout. unfold get_color.
      assert ((number =? 0) = false) as -> by lia.
      rewrite !member_outside; [done|..];
        repeat constructor; lia.
Qed.

Lemma find_zone_slot number :
  0 <= number <= 36 ->
  exists i, index_on_wheel number = Ok i /\
            find_zone number = Some (i / 5 + 1) /\
            1 <= i / 5 + 1 <= 8.
Proof.
  intros Hn.
  each_position number; eexists; (split; [reflexivity|]);
    (split; [reflexivity|by vm_compute]).
Qed.

Lemma find_zone_outside q : ~ (0 <= q <= 36) -> find_zone q = None.
Proof.
  intros Hq. unfold find_zone, wheel_zones. cbn [find_zone_from].
  rewrite !member_outside; [done|..]; repeat constructor; lia.
Qed.

(** X4. The zones are eight runs of consecutive slots of the wheel, five slots
    each but the last: [find_zone] maps the number at slot [i] to zone
    [i // 5 + 1], and every number outside 0..36 to [None]. *)
Theorem find_zone_by_slot (number q : Z) :
  0 <= number <= 36 -> ~ (0 <= q <= 36) ->
  (exists i, index_on_wheel number = Ok i /\
             find_zone number = Some (i / 5 + 1) /\
             1 <= i / 5 + 1 <= 8) /\
  find_zone q = None.
Proof.
  intros Hn Hq. split; [by apply find_zone_slot | by apply find_zone_outside].
Qed.

Lemma find_zone_by_slot_witness :
  (exists i, index_on_wheel 26 = Ok i /\
             find_zone 26 = Some (i / 5 + 1) /\
             1 <= i / 5 + 1 <= 8) /\
  find_zone (-1) = None.
Proof. apply (find_zone_by_slot 26 (-1)); lia. Defined.

(** ** [add_spin] in closed form *)

(** Runs a method of [testRou.py] on a predictor given by its fields. *)
Ltac run_on_fields :=
  lazy beta iota zeta delta
    [state_after returned bind gets modify ret lift fst snd
     testRou.add_spin testRou._apply_decay testRou.dealer_zone_weights_getitem
     testRou.spins testRou.max_history testRou.decay
     testRou.distance_freq_clockwise testRou.distance_freq_anticlockwise
     testRou.number_weights testRou.color_weights testRou.zone_weights
     testRou.dealer_zone_weights testRou.spin_history
     testRou.set_spins testRou.set_spin_history testRou.set_distance_freq
     testRou.set_number_weights testRou.set_color_weights
     testRou.set_zone_weights testRou.set_dealer_zone_weights
     testRou.distance_freq after_add_spin zones_after testRou.dealers_after].

Lemma len_snoc {A} (l : list A) x : len (l ++ [x]) = len l + 1.
Proof. unfold len. rewrite length_app. simpl. lia. Qed.

Lemma len_nonneg {A} (l : list A) : 0 <= len l.
Proof. unfold len. lia. Qed.

(** [l[-2]] after an append is the former last item. *)
Lemma list_getitem_snoc_m2 {A} (l : list A) x :
  list_getitem (l ++ [x]) (-2) =
    match last l with
    | Some y => Ok y
    | None => Raise IndexError
    end.
Proof.
  unfold list_getitem. cbn [Z.ltb Z.compare]. rewrite len_snoc.
  destruct l as [|a l] using rev_ind.
  - reflexivity.
  - rewrite last_snoc, len_snoc.
    pose proof (len_nonneg l).
    destruct (len l + 1 + 1 + -2 <? 0) eqn:E; [lia|].
    replace (len l + 1 + 1 + -2) with (len l) by lia.
    unfold len. rewrite Nat2Z.id.
    rewrite <- app_assoc. rewrite nth_error_app2 by lia.
    by rewrite Nat.sub_diag.
Qed.

Lemma last_None_nil {A} (l : list A) : last l = None -> l = [].
Proof. destruct l as [|a l] using rev_ind; [done|]. by rewrite last_snoc. Qed.

Section ClosedForm.
Context {W : Type} `{Number W}.
Import testRou.
Implicit Types (self : RoulettePredictor W).

Lemma add_spin_closed_form self number dealer :
  add_spin number dealer self =
    (result_bind (distance_update (spins self) number) (fun _ => Ok tt),
     after_add_spin self number dealer).
Proof.
  destruct self as [sp mh d cw acw nw colw zw dzw hist].
  run_on_fields.
  assert (Hnonempty : forall prev, last sp = Some prev ->
            (1 <? len sp + 1) = true).
  { intros prev Hlast. destruct sp; [discriminate Hlast|].
    apply Z.ltb_lt. unfold len. simpl length. lia. }
  destruct (zone_truthy (find_zone number)) as [zone|];
    [destruct (dealer_truthy dealer) as [name|];
       [run_on_fields;
        destruct (defaultdict_getitem counter_new name (decay_dealers d dzw))
          as [c dd]|]|];
    run_on_fields; rewrite len_snoc;
    unfold distance_update, distances_after;
    (destruct (last sp) as [prev|] eqn:Hlast;
     [rewrite (Hnonempty prev eq_refl); run_on_fields;
      rewrite list_getitem_snoc_m2, Hlast; cbv zeta;
      destruct (get_spin_direction (len sp + 1));
      (destruct (_ prev.1 number) as [dist|e]; [|reflexivity]);
      reflexivity
     |apply last_None_nil in Hlast as ->; reflexivity]).
Qed.

Lemma add_spin_returned self number dealer :
  returned (add_spin number dealer) self =
    result_bind (distance_update (spins self) number) (fun _ => Ok tt).
Proof. unfold returned. by rewrite add_spin_closed_form. Qed.

Lemma add_spin_after self number dealer :
  state_after (add_spin number dealer) self = after_add_spin self number dealer.
Proof. unfold state_after. by rewrite add_spin_closed_form. Qed.
End ClosedForm.

(** ** What [add_spin] accepts, records and raises *)

Lemma distance_in_valid direction a b :
  0 <= a <= 36 -> 0 <= b <= 36 ->
  exists dist, distance_in direction a b = Ok dist /\ 0 <= dist <= 36.
Proof.
  intros Ha Hb.
  destruct (index_on_wheel_valid a Ha) as (i & Hi & _).
  destruct (index_on_wheel_valid b Hb) as (j & Hj & _).
  destruct direction; unfold distance_in, distance_clockwise,
    distance_anticlockwise; rewrite Hi, Hj; cbn [result_bind];
    rewrite len_wheel_sequence; (eexists; split; [done|]).
  - pose proof (Z.mod_pos_bound (j - i) 37 eq_refl). lia.
  - pose proof (Z.mod_pos_bound (i - j) 37 eq_refl). lia.
Qed.

Lemma distance_in_off_wheel direction a b :
  ~ (0 <= b <= 36) -> distance_in direction a b = Raise ValueError.
Proof.
  intros Hb.
  assert (Hib : index_on_wheel b = Raise ValueError).
  { apply list_index_not_elem. by rewrite wheel_positions. }
  destruct direction; unfold distance_in, distance_clockwise,
    distance_anticlockwise;
    (destruct (index_on_wheel a) as [i|e] eqn:Ha; cbn [result_bind];
     [by rewrite Hib | by apply list_index_Raise in Ha as ->]).
Qed.

Lemma distance_update_in before number :
  distance_update before number =
    match last before with
    | None => Ok None
    | Some prev =>
        result_bind
          (distance_in (get_spin_direction (len before + 1)) prev.1 number)
          (fun dist => Ok (Some (get_spin_direction (len before + 1), dist)))
    end.
Proof.
  unfold distance_update, distance_in.
  destruct (last before); [|done]. by destruct (get_spin_direction _).
Qed.

Lemma valid_spins_last l prev :
  valid_spins l -> last l = Some prev -> 0 <= prev.1 <= 36.
Proof.
  intros Hl Hlast. eapply Forall_forall in Hl; [done|].
  apply last_Some in Hlast as [l' ->]. apply list_elem_of_In, in_app_iff.
  right. by left.
Qed.

(** X5. [add_spin] of a wheel position on a predictor whose recorded numbers
    are wheel positions returns normally, whatever the dealer, and leaves
    such a predictor. *)
Theorem add_spin_accepts_positions {W : Type} `{Number W}
    (self : testRou.RoulettePredictor W) (number : Z) (dealer : option string) :
  valid_spins (testRou.spins self) ->
  0 <= number <= 36 ->
  returned (testRou.add_spin number dealer) self = Ok tt /\
  valid_spins (testRou.spins (state_after (testRou.add_spin number dealer) self)).
Proof.
  intros Hvalid Hnumber. split.
  - rewrite add_spin_returned, distance_update_in.
    destruct (last (testRou.spins self)) as [prev|] eqn:Hlast; [|done].
    destruct (distance_in_valid (get_spin_direction (len (testRou.spins self) + 1))
                prev.1 number) as (dist & -> & _); [|done..].
    by eapply valid_spins_last.
  - rewrite add_spin_after. cbn [after_add_spin testRou.spins].
    apply Forall_app. split; [done|]. by constructor.
Qed.

Lemma add_spin_accepts_positions_witness :
  returned (testRou.add_spin 17 (Some "dealer1"%string)) after_0_32_15 = Ok tt /\
  valid_spins
    (testRou.spins
       (state_after (testRou.add_spin 17 (Some "dealer1"%string)) after_0_32_15)).
Proof.
  apply (add_spin_accepts_positions after_0_32_15 17 (Some "dealer1"%string)).
  - replace (testRou.spins after_0_32_15)
      with ([(0, None); (32, None); (15, None)] : list (Z * option string))
      by (vm_compute; reflexivity).
    repeat constructor; simpl; lia.
  - lia.
Defined.

(** X6. [add_spin] does not check its number. A number outside 0..36 is
    appended to the spins and counted in the number table like any other;
    the call then returns normally on a predictor with no spin yet, and
    raises [ValueError] (from the distance lookup) on any other. *)
Theorem add_spin_off_wheel {W : Type} `{Number W}
    (self : testRou.RoulettePredictor W) (number : Z) (dealer : option string) :
  ~ (0 <= number <= 36) ->
  let after := state_after (testRou.add_spin number dealer) self in
  testRou.spins after = testRou.spins self ++ [(number, dealer)] /\
  is_Some (dict_lookup number (testRou.number_weights after)) /\
  returned (testRou.add_spin number dealer) self =
    if list_is_empty (testRou.spins self) then Ok tt else Raise ValueError.
Proof.
  intros Hnumber after. subst after. rewrite add_spin_after.
  cbn [after_add_spin testRou.spins testRou.number_weights]. split_and!.
  - done.
  - rewrite counter_incr_lookup_eq. by eexists.
  - rewrite add_spin_returned, distance_update_in.
    destruct (testRou.spins self) as [|x l] using rev_ind; [done|].
    rewrite last_snoc, distance_in_off_wheel by done.
    by destruct l.
Qed.

Lemma add_spin_off_wheel_witness :
  let after := state_after (testRou.add_spin 37 None) after_0_32 in
  testRou.spins after = testRou.spins after_0_32 ++ [(37, None)] /\
  is_Some (dict_lookup 37 (testRou.number_weights after)) /\
  returned (testRou.add_spin 37 None) after_0_32 =
    if list_is_empty (testRou.spins after_0_32) then Ok tt else Raise ValueError.
Proof. apply (add_spin_off_wheel after_0_32 37 None). lia. Defined.

(** X7. The distance [add_spin] records. On a predictor whose last number and
    the new one are wheel positions, the call counts, in the table of the
    new spin's direction (clockwise when the spin number is odd), the
    distance in that direction from the last number to the new one, a
    number in 0..36; it only decays the table of the other direction. *)
Theorem add_spin_records_distance {W : Type} `{Number W}
    (self : testRou.RoulettePredictor W) (prev : Z * option string)
    (number : Z) (dealer : option string) :
  last (testRou.spins self) = Some prev ->
  0 <= prev.1 <= 36 ->
  0 <= number <= 36 ->
  let after := state_after (testRou.add_spin number dealer) self in
  let direction := get_spin_direction (len (testRou.spins self) + 1) in
  exists dist,
    distance_in direction prev.1 number = Ok dist /\
    0 <= dist <= 36 /\
    testRou.distance_freq after direction =
      counter_incr dist
        (decay_counter (testRou.decay self) (testRou.distance_freq self direction)) /\
    testRou.distance_freq after (opposite direction) =
      decay_counter (testRou.decay self)
        (testRou.distance_freq self (opposite direction)).
Proof.
  intros Hlast Hprev Hnumber after direction. subst after.
  destruct (distance_in_valid direction prev.1 number Hprev Hnumber)
    as (dist & Hdist & Hrange).
  exists dist. split; [done|]. split; [done|].
  rewrite add_spin_after. unfold after_add_spin.
  rewrite distance_update_in, Hlast. fold direction. rewrite Hdist.
  cbn [result_bind]. unfold distances_after.
  destruct direction; cbn [testRou.distance_freq opposite
    testRou.distance_freq_clockwise testRou.distance_freq_anticlockwise];
    rewrite ?decide_True by done; rewrite ?decide_False by done; done.
Qed.

Lemma add_spin_records_distance_witness :
  let self := after_0_32 in
  let after := state_after (testRou.add_spin 15 None) self in
  let direction := get_spin_direction (len (testRou.spins self) + 1) in
  exists dist,
    distance_in direction (32, @None string).1 15 = Ok dist /\
    0 <= dist <= 36 /\
    testRou.distance_freq after direction =
      counter_incr dist
        (decay_counter (testRou.decay self) (testRou.distance_freq self direction)) /\
    testRou.distance_freq after (opposite direction) =
      decay_counter (testRou.decay self)
        (testRou.distance_freq self (opposite direction)).
Proof.
  apply (add_spin_records_distance after_0_32 (32, None) 15 None).
  - reflexivity.
  - simpl. lia.
  - lia.
Defined.

(** X8. The first spin records no distance: both distance tables are only
    decayed. *)
Theorem first_spin_records_no_distance {W : Type} `{Number W}
    (self : testRou.RoulettePredictor W) (number : Z) (dealer : option string)
    (direction : Direction) :
  testRou.spins self = [] ->
  returned (testRou.add_spin number dealer) self = Ok tt /\
  testRou.distance_freq (state_after (testRou.add_spin number dealer) self)
    direction =
    decay_counter (testRou.decay self) (testRou.distance_freq self direction).
Proof.
  intros Hempty. rewrite add_spin_returned, add_spin_after.
  unfold after_add_spin. rewrite Hempty. split; [done|].
  by destruct direction.
Qed.

Lemma first_spin_records_no_distance_witness :
  returned (testRou.add_spin 0 None) (fresh default_decay) = Ok tt /\
  testRou.distance_freq (state_after (testRou.add_spin 0 None) (fresh default_decay))
    clockwise =
    decay_counter (testRou.decay (fresh default_decay))
      (testRou.distance_freq (fresh default_decay) clockwise).
Proof.
  apply (first_spin_records_no_distance (fresh default_decay) 0 None clockwise).
  reflexivity.
Defined.

(** ** The bounded history *)

Lemma deque_append_recent {A} (maxlen : nat) (x : A) (l : list A) :
  deque_append maxlen x (drop (length l - maxlen) l) =
    drop (length (l ++ [x]) - maxlen) (l ++ [x]).
Proof.
  unfold deque_append. rewrite !length_app, length_drop. simpl length.
  destruct (decide (length l < maxlen)%nat) as [Hlt|Hge].
  - replace (length l - maxlen)%nat with 0%nat by lia.
    replace (length l - 0 + 1 - maxlen)%nat with 0%nat by lia.
    by replace (length l + 1 - maxlen)%nat with 0%nat by lia.
  - replace (length l - (length l - maxlen) + 1 - maxlen)%nat with 1%nat by lia.
    replace (length l + 1 - maxlen)%nat with (S (length l - maxlen)) by lia.
    destruct (decide (maxlen = 0)%nat) as [->|Hpos].
    + rewrite Nat.sub_0_r, drop_all. simpl.
      rewrite drop_ge; [done|]. rewrite length_app. simpl. lia.
    + rewrite drop_app_le by (rewrite length_drop; lia).
      rewrite drop_drop. rewrite (drop_app_le l) by lia.
      by replace (length l - maxlen + 1)%nat with (S (length l - maxlen)) by lia.
Qed.

(** X9. [spin_history] is a bounded window on [spins]: on every reachable
    predictor it holds the last [max_history] recorded spins, in order, and
    never more than [max_history] of them. *)
Theorem spin_history_is_recent {W : Type} `{Number W}
    (self : testRou.RoulettePredictor W) :
  testRou.reachable self ->
  testRou.spin_history self =
    drop (length (testRou.spins self) - testRou.max_history self)
      (testRou.spins self) /\
  (length (testRou.spin_history self) <= testRou.max_history self)%nat.
Proof.
  intros Hreach.
  assert (Hrecent : testRou.spin_history self =
    drop (length (testRou.spins self) - testRou.max_history self)
      (testRou.spins self)).
  { induction Hreach as [max_history dec|self number dealer _ IH|self n dealer _ IH].
    - reflexivity.
    - rewrite add_spin_after.
      cbn [after_add_spin testRou.spin_history testRou.spins testRou.max_history].
      rewrite IH. apply deque_append_recent.
    - by rewrite predict_state_after. }
  split; [done|]. rewrite Hrecent, length_drop. lia.
Qed.

Lemma spin_history_is_recent_witness :
  testRou.spin_history after_four_keep_two =
    drop (length (testRou.spins after_four_keep_two) -
            testRou.max_history after_four_keep_two)
      (testRou.spins after_four_keep_two) /\
  (length (testRou.spin_history after_four_keep_two) <=
     testRou.max_history after_four_keep_two)%nat.
Proof.
  apply (spin_history_is_recent after_four_keep_two).
  apply reachable_add_spins, testRou.reachable_init.
Defined.

(** ** The tables stay small *)

Section Bounded.
Context {W : Type} `{Number W}.
Import testRou.
Implicit Types (self : RoulettePredictor W) (dec : W).

Lemma decay_counter_keys {K} `{EqDecision K} dec (c : Counter W K) k :
  dict_wf c -> k ∈ dict_keys (decay_counter dec c) -> k ∈ dict_keys c.
Proof.
  intros Hwf Hk. apply dict_keys_lookup in Hk as [w' Hw'].
  destruct (decay_counter_decayed_from dec c Hwf) as [Hleft _].
  destruct (Hleft k w' Hw') as (w & Hw & _). by eapply dict_lookup_Some_keys.
Qed.

Lemma counter_incr_keys {K} `{EqDecision K} (c : Counter W K) k0 k :
  k ∈ dict_keys (counter_incr k0 c) <-> k = k0 \/ k ∈ dict_keys c.
Proof. apply dict_keys_set. Qed.

Lemma zone_truthy_range number zone :
  zone_truthy (find_zone number) = Some zone -> 1 <= zone <= 8.
Proof.
  destruct (decide (0 <= number <= 36)) as [Hn|Hn].
  - destruct (find_zone_slot number Hn) as (i & _ & -> & Hr).
    unfold zone_truthy. destruct (_ =? 0) eqn:E; [done|]. by intros [= <-].
  - by rewrite find_zone_outside.
Qed.

Lemma bounded_tables_init max_history dec :
  bounded_tables (__init__ max_history dec).
Proof.
  split_and!.
  - intros [] k Hk; by apply not_elem_of_nil in Hk.
  - intros k Hk. by apply not_elem_of_nil in Hk.
  - intros k Hk. by apply not_elem_of_nil in Hk.
  - intros k Hk. by apply not_elem_of_nil in Hk.
  - intros dealer c zone Hc. discriminate Hc.
Qed.

Lemma bounded_tables_add_spin self number dealer :
  wf self -> valid_spins (spins self) -> 0 <= number <= 36 ->
  bounded_tables self ->
  bounded_tables (state_after (add_spin number dealer) self).
Proof.
  intros Hwf Hvalid Hnumber (Hdist & Hnum & Hcol & Hzone & Hdeal).
  rewrite add_spin_after. unfold after_add_spin. split_and!.
  - intros direction k.
    assert (Hin : forall c : Counter W Z, dict_wf c ->
              (forall k, k ∈ dict_keys c -> 0 <= k <= 36) ->
              k ∈ dict_keys (distances_after (decay self)
                   (distance_update (spins self) number) direction c) ->
              0 <= k <= 36).
    { intros c Hc Hkeys. unfold distances_after. rewrite distance_update_in.
      destruct (last (spins self)) as [prev|] eqn:Hlast;
        [|by intros Hk%decay_counter_keys; auto].
      destruct (distance_in_valid (get_spin_direction (len (spins self) + 1))
                  prev.1 number) as (dist & -> & Hr);
        [by eapply valid_spins_last|done|].
      cbn [result_bind]. destruct (decide _).
      - intros [->|Hk%decay_counter_keys]%counter_incr_keys; auto.
      - intros Hk%decay_counter_keys; auto. }
    destruct direction; cbn [distance_freq distance_freq_clockwise
      distance_freq_anticlockwise]; apply Hin; try apply Hwf.
    + apply (Hdist clockwise).
    + apply (Hdist anticlockwise).
  - intros k. cbn [number_weights].
    intros [->|Hk%decay_counter_keys]%counter_incr_keys; [done|auto|apply Hwf].
  - intros color. cbn [color_weights].
    intros [->|Hk%decay_counter_keys]%counter_incr_keys;
      [by apply get_color_known|auto|apply Hwf].
  - intros zone. cbn [zone_weights]. unfold zones_after.
    destruct (zone_truthy (find_zone number)) as [z|] eqn:Hz.
    + intros [->|Hk%decay_counter_keys]%counter_incr_keys;
        [by eapply zone_truthy_range|auto|apply Hwf].
    + intros Hk%decay_counter_keys; [auto|apply Hwf].
  - intros name c zone. cbn [dealer_zone_weights].
    assert (Hdecayed : forall name c zone,
      dict_lookup name (decay_dealers (decay self) (dealer_zone_weights self))
        = Some c ->
      zone ∈ dict_keys c -> 1 <= zone <= 8).
    { intros name' c' z. rewrite decay_dealers_lookup by apply Hwf.
      destruct (dict_lookup name' (dealer_zone_weights self)) as [c0|] eqn:Hc0;
        [|done].
      unfold decay_table. destruct (list_is_empty _); [done|].
      intros [= <-] Hz%decay_counter_keys; [by eapply Hdeal|].
      by eapply wf_dealer. }
    unfold dealers_after.
    destruct (zone_truthy (find_zone number)) as [z|] eqn:Hz;
      [|by apply Hdecayed].
    destruct (dealer_truthy dealer) as [name'|]; [|by apply Hdecayed].
    unfold defaultdict_getitem.
    destruct (dict_lookup name' (decay_dealers _ _)) as [c0|] eqn:Hc0;
      cbv beta iota;
      (destruct (decide (name' = name)) as [->|Hne];
       [rewrite dict_lookup_set_eq; intros [= <-];
        intros [->|Hk]%counter_incr_keys;
        [by eapply zone_truthy_range|]
       |rewrite ?dict_lookup_set_ne by done; by apply Hdecayed]).
    + by eapply Hdecayed.
    + by apply not_elem_of_nil in Hk.
Qed.

Lemma add_spins_spins l max_history dec :
  spins (add_spins l (__init__ max_history dec)) = l.
Proof.
  induction l as [|[number dealer] l IH] using rev_ind; [done|].
  rewrite add_spins_snoc, add_spin_after. cbn [after_add_spin spins].
  by rewrite IH.
Qed.

Lemma bounded_tables_run l max_history dec :
  valid_spins l -> bounded_tables (add_spins l (__init__ max_history dec)).
Proof.
  induction l as [|[number dealer] l IH] using rev_ind; intros Hvalid.
  - apply bounded_tables_init.
  - apply Forall_app in Hvalid as [Hl Hx]. apply Forall_inv in Hx.
    rewrite add_spins_snoc. apply bounded_tables_add_spin; [| |exact Hx|by apply IH].
    + apply reachable_wf, reachable_add_spins, reachable_init.
    + by rewrite add_spins_spins.
Qed.

Lemma dict_size_bound {K V} `{EqDecision K} (d : dict K V) (all : list K) :
  dict_wf d -> (forall k, k ∈ dict_keys d -> k ∈ all) ->
  (length d <= length all)%nat.
Proof.
  intros Hwf Hkeys. rewrite <- (length_map fst d).
  apply submseteq_length, NoDup_submseteq; done.
Qed.
End Bounded.

(** X10. The tables stay small. After any run of [add_spin] on wheel positions,
    each distance table and the number table hold only keys in 0..36 (at
    most 37 entries), the color table only green, red and black (at most
    3), the zone table and the table of every dealer only zones in 1..8 (at
    most 8). *)
Theorem tables_stay_small {W : Type} `{Number W}
    (l : list (Z * option string)) (max_history : nat) (dec : W) :
  valid_spins l ->
  let self := testRou.add_spins l (testRou.__init__ max_history dec) in
  bounded_tables self /\
  (forall direction,
     (length (testRou.distance_freq self direction) <= 37)%nat) /\
  (length (testRou.number_weights self) <= 37)%nat /\
  (length (testRou.color_weights self) <= 3)%nat /\
  (length (testRou.zone_weights self) <= 8)%nat /\
  (forall dealer c,
     dict_lookup dealer (testRou.dealer_zone_weights self) = Some c ->
     (length c <= 8)%nat).
Proof.
  intros Hvalid self.
  assert (Hwf : testRou.wf self)
    by apply reachable_wf, reachable_add_spins, testRou.reachable_init.
  pose proof (bounded_tables_run l max_history dec Hvalid) as Hb.
  fold self in Hb. split; [done|].
  destruct Hb as (Hdist & Hnum & Hcol & Hzone & Hdeal).
  split_and!.
  - intros direction. apply (dict_size_bound _ wheel_sequence).
    + by apply wf_distance_freq.
    + intros k Hk. apply wheel_positions. by eapply Hdist.
  - apply (dict_size_bound _ wheel_sequence); [apply Hwf|].
    intros k Hk. apply wheel_positions. by apply Hnum.
  - apply (dict_size_bound _ [green; red; black]); [apply Hwf|].
    intros color Hc. apply Hcol in Hc.
    destruct color; rewrite !elem_of_cons; tauto.
  - apply (dict_size_bound _ (seqZ 1 8)); [apply Hwf|].
    intros zone Hz. apply elem_of_seqZ. apply Hzone in Hz. lia.
  - intros dealer c Hc. apply (dict_size_bound _ (seqZ 1 8)).
    + by eapply testRou.wf_dealer.
    + intros zone Hz. apply elem_of_seqZ. eapply Hdeal in Hz; [lia|done].
Qed.

Lemma tables_stay_small_witness :
  let self :=
    testRou.add_spins [(0, Some "A"%string); (5, Some "B"%string)]
      (testRou.__init__ default_max_history default_decay) in
  bounded_tables self /\
  (forall direction,
     (length (testRou.distance_freq self direction) <= 37)%nat) /\
  (length (testRou.number_weights self) <= 37)%nat /\
  (length (testRou.color_weights self) <= 3)%nat /\
  (length (testRou.zone_weights self) <= 8)%nat /\
  (forall dealer c,
     dict_lookup dealer (testRou.dealer_zone_weights self) = Some c ->
     (length c <= 8)%nat).
Proof.
  apply (tables_stay_small [(0, Some "A"%string); (5, Some "B"%string)]
           default_max_history default_decay).
  repeat constructor; simpl; lia.
Defined.

(** ** [roulette.py]: when a prediction is available *)

Section RouletteRuns.
Context {W : Type} `{Number W}.
Import roulette.
Implicit Types (self : RoulettePredictor W).

Lemma roulette_add_spin_closed_form self number :
  add_spin number self =
    (result_bind (roulette_distance_update (spins self) number)
       (fun _ => Ok tt),
     roulette_after_add_spin self number).
Proof.
  destruct self as [sp cw acw].
  unfold add_spin, roulette_after_add_spin, roulette_distance_update,
    roulette_distances_after, distance_in, bind, gets, modify, ret, lift,
    set_spins, set_distance_freq, distance_freq.
  cbn [spins distance_freq_clockwise distance_freq_anticlockwise].
  rewrite len_snoc.
  destruct (last sp) as [prev|] eqn:Hlast.
  - assert ((1 <? len sp + 1) = true) as ->.
    { destruct sp; [discriminate Hlast|]. apply Z.ltb_lt. unfold len.
      simpl length. lia. }
    cbn [spins]. rewrite list_getitem_snoc_m2, Hlast. cbv zeta.
    destruct (get_spin_direction (len sp + 1));
      (destruct (_ prev number) as [dist|e]; [|reflexivity]); reflexivity.
  - apply last_None_nil in Hlast as ->. reflexivity.
Qed.

Lemma roulette_add_spin_after self number :
  state_after (add_spin number) self = roulette_after_add_spin self number.
Proof. unfold state_after. by rewrite roulette_add_spin_closed_form. Qed.

Lemma roulette_add_spins_snoc l number self :
  add_spins (l ++ [number]) self = state_after (add_spin number) (add_spins l self).
Proof. unfold add_spins. by rewrite fold_left_app. Qed.

Lemma counter_incr_not_empty {K} `{EqDecision K} (k : K) (c : Counter W K) :
  list_is_empty (counter_incr k c) = false.
Proof.
  unfold counter_incr. destruct c as [|[k' w'] c]; simpl; [done|].
  by destruct (decide (k' = k)).
Qed.

Lemma get_spin_direction_cases n :
  (get_spin_direction n = clockwise /\ n mod 2 = 1) \/
  (get_spin_direction n = anticlockwise /\ n mod 2 = 0).
Proof.
  unfold get_spin_direction. pose proof (Z.mod_pos_bound n 2 eq_refl).
  destruct (n mod 2 =? 1) eqn:E; [left|right]; split; (done || lia).
Qed.

(** After a run on wheel positions: the spins are the run, and a distance
    table is empty exactly as long as no spin of its direction has
    followed another spin. *)
Lemma roulette_run_tables (l : list Z) :
  valid_numbers l ->
  let self := add_spins l __init__ in
  spins self = l /\
  (list_is_empty (distance_freq self anticlockwise) = true <-> len l < 2) /\
  (list_is_empty (distance_freq self clockwise) = true <-> len l < 3).
Proof.
  induction l as [|number l IH] using rev_ind; intros Hvalid self.
  - subst self. split; [done|]. unfold len. simpl. split; (split; [lia|done]).
  - apply Forall_app in Hvalid as [Hl Hx]. apply Forall_inv in Hx.
    destruct (IH Hl) as (Hs & Hacw & Hcw). subst self.
    rewrite roulette_add_spins_snoc, roulette_add_spin_after.
    unfold roulette_after_add_spin. rewrite Hs.
    cbn [spins distance_freq distance_freq_clockwise
         distance_freq_anticlockwise] in *.
    split; [done|]. rewrite len_snoc. pose proof (len_nonneg l) as Hlen.
    unfold roulette_distance_update.
    destruct l as [|prev l'] using rev_ind.
    { cbn. unfold len in *. simpl in *. split; (split; [lia|done]). }
    clear IHl'. rewrite last_snoc. rewrite len_snoc in *.
    pose proof (len_nonneg l') as Hlen'.
    apply Forall_app in Hl as [_ Hprev]. apply Forall_inv in Hprev.
    destruct (distance_in_valid (get_spin_direction (len l' + 1 + 1)) prev number)
      as (dist & -> & _); [done..|].
    cbn [result_bind]. unfold roulette_distances_after.
    destruct (get_spin_direction_cases (len l' + 1 + 1)) as [[-> Hodd]|[-> Heven]].
    + rewrite decide_False by done. rewrite decide_True by done.
      rewrite counter_incr_not_empty.
      assert (len l' + 1 <> 1).
      { intros Heq. rewrite Heq in Hodd. discriminate Hodd. }
      split; [rewrite Hacw|]; split; (lia || done).
    + rewrite decide_True by done. rewrite decide_False by done.
      rewrite counter_incr_not_empty.
      assert (len l' + 1 <> 2).
      { intros Heq. rewrite Heq in Heven. discriminate Heven. }
      split; [|rewrite Hcw]; split; (lia || done).
Qed.
End RouletteRuns.

Lemma for_each_all_Ok {A B} (f : A -> result B) l :
  (forall a, a ∈ l -> exists b, f a = Ok b) -> exists l', for_each f l = Ok l'.
Proof.
  induction l as [|a l IH]; intros Hall; simpl; [by eexists|].
  destruct (Hall a) as [b ->]; [by left|].
  destruct IH as [l' ->]; [intros a' Ha'; apply Hall; by right|].
  by eexists.
Qed.

Lemma dict_lookup_elem {K V} `{EqDecision K} (k : K) (v : V) (d : dict K V) :
  dict_lookup k d = Some v -> (k, v) ∈ d.
Proof.
  induction d as [|[k' v'] d IH]; simpl; [done|].
  destruct (decide (k' = k)) as [->|].
  - intros [= ->]. by left.
  - intros Hd. right. by apply IH.
Qed.

Section RouletteExact.
Import roulette.
Local Open Scope Qc_scope.

Lemma Qc_1_le_succ (w : Qc) : 0 <= w -> 1 <= w + 1.
Proof.
  intros Hw. rewrite <- (Qcplus_0_l 1) at 1.
  apply Qcplus_le_compat; [done|apply Qcle_refl].
Qed.

Lemma Qc_0_le_1 : 0 <= 1.
Proof. by vm_compute. Qed.

Lemma dict_set_Forall {K V} `{EqDecision K} (P : K * V -> Prop) k v
    (d : dict K V) :
  Forall P d -> P (k, v) -> Forall P (dict_set k v d).
Proof.
  intros Hd Hkv. induction Hd as [|[k' v'] d Hx Hd IH]; simpl.
  - by constructor.
  - destruct (decide (k' = k)); constructor; done.
Qed.

Lemma counter_incr_positive {K} `{EqDecision K} k (c : Counter Qc K) :
  counts_positive c -> counts_positive (counter_incr k c).
Proof.
  intros Hc. apply dict_set_Forall; [done|]. cbn [snd wadd of_int exact].
  change (Q2Qc (inject_Z 1)) with 1. apply Qc_1_le_succ.
  unfold counter_get. destruct (dict_lookup k c) as [w|] eqn:Hw.
  - apply dict_lookup_elem in Hw. eapply Forall_forall in Hc; [|done].
    apply Qcle_trans with 1; [apply Qc_0_le_1|done].
  - apply Qcle_refl.
Qed.

Lemma fold_left_Qcplus_ge (l : list Qc) (acc : Qc) :
  Forall (fun w => 1 <= w) l -> acc <= fold_left Qcplus l acc.
Proof.
  revert acc. induction l as [|w l IH]; intros acc Hl; simpl; [apply Qcle_refl|].
  apply Forall_cons in Hl as [Hw Hl].
  apply Qcle_trans with (acc + w); [|by apply IH].
  rewrite <- (Qcplus_0_r acc) at 1.
  apply Qcplus_le_compat; [apply Qcle_refl|].
  apply Qcle_trans with 1; [apply Qc_0_le_1|done].
Qed.

Lemma counter_total_positive {K} (c : Counter Qc K) :
  counts_positive c -> list_is_empty c = false -> counter_total c <> 0.
Proof.
  intros Hc Hne. destruct c as [|[k w] c]; [done|].
  apply Forall_cons in Hc as [Hw Hc]. simpl in Hw.
  unfold counter_total, dict_values. cbn [map fold_left snd wadd of_int exact].
  change (Q2Qc (inject_Z 0)) with 0. rewrite Qcplus_0_l.
  assert (Hge : w <= fold_left Qcplus (map snd c) w).
  { apply fold_left_Qcplus_ge. by apply Forall_map. }
  intros Hzero. rewrite Hzero in Hge.
  assert (H10 : 1 <= 0) by (by apply Qcle_trans with w).
  by vm_compute in H10.
Qed.

Lemma roulette_run_positive (l : list Z) direction :
  valid_numbers l ->
  counts_positive (distance_freq (add_spins l __init__) direction).
Proof.
  induction l as [|number l IH] using rev_ind; intros Hvalid.
  - destruct direction; constructor.
  - apply Forall_app in Hvalid as [Hl Hx].
    rewrite roulette_add_spins_snoc, roulette_add_spin_after.
    unfold roulette_after_add_spin, roulette_distances_after.
    specialize (IH Hl).
    destruct (roulette_distance_update _ _) as [[[direction' dist]|]|e];
      destruct direction;
      cbn [distance_freq distance_freq_clockwise distance_freq_anticlockwise];
      try (destruct (decide _); [apply counter_incr_positive|]);
      first [ apply (IH) | idtac ].
    all: revert IH; cbn [distance_freq]; done.
Qed.
End RouletteExact.

Lemma candidate_Ok_exact direction last_index (total : Qc) entry :
  total <> Q2Qc 0 ->
  exists row, candidate direction last_index total entry = Ok row.
Proof.
  intros Htotal. unfold candidate, probability. destruct entry as [dist count].
  cbn [wdiv exact]. destruct (Qc_eq_dec total (Q2Qc 0)); [done|].
  cbn [result_bind].
  destruct (list_getitem_in_range wheel_sequence
              (predicted_index direction last_index dist)) as [x ->];
    [apply predicted_index_range|]. by eexists.
Qed.

(** X11. When [roulette.py] has a prediction. After a run of [add_spin] on wheel
    positions, [predict_next_top_n] answers "No spins recorded yet." after
    no spin, "No distance data" for the anticlockwise direction after one
    spin and for the clockwise direction after two, and from three spins on
    always returns a report for the next spin (in exact arithmetic: counts
    are whole numbers, and their sum is not zero). *)
Theorem roulette_prediction_available (l : list Z) (n : Z) :
  valid_numbers l ->
  let self : roulette.RoulettePredictor Qc :=
    roulette.add_spins l roulette.__init__ in
  (len l = 0 -> returned (roulette.predict_next_top_n n) self = Ok roulette.NoSpins) /\
  (len l = 1 ->
   returned (roulette.predict_next_top_n n) self =
     Ok (roulette.NoDistanceData anticlockwise)) /\
  (len l = 2 ->
   returned (roulette.predict_next_top_n n) self =
     Ok (roulette.NoDistanceData clockwise)) /\
  (3 <= len l ->
   exists results,
     returned (roulette.predict_next_top_n n) self =
       Ok (roulette.Report (len l + 1) (get_spin_direction (len l + 1)) n results)).
Proof.
  intros Hvalid self.
  destruct (roulette_run_tables (W := Qc) l Hvalid) as (Hs & Hacw & Hcw).
  fold self in Hs, Hacw, Hcw.
  unfold roulette.predict_next_top_n, returned, bind, gets, ret, lift.
  cbn [fst snd]. rewrite Hs.
  destruct l as [|x l'] using rev_ind.
  { split_and!; try done; unfold len; simpl; lia. }
  clear IHl'. rewrite len_snoc in *. pose proof (len_nonneg l') as Hlen.
  assert (list_is_empty (l' ++ [x]) = false) as -> by (by destruct l').
  split; [lia|].
  destruct (decide (len l' + 1 = 1)) as [H1|H1].
  { rewrite H1. cbn [get_spin_direction Z.modulo Z.eqb]. 
    change (get_spin_direction (1 + 1)) with anticlockwise.
    rewrite (proj2 Hacw) by lia. split_and!; (done || lia). }
  destruct (decide (len l' + 1 = 2)) as [H2|H2].
  { rewrite H2. change (get_spin_direction (2 + 1)) with clockwise.
    rewrite (proj2 Hcw) by lia. split_and!; (done || lia). }
  split; [lia|]. split; [lia|]. intros _.
  assert (Hnonempty : list_is_empty
            (roulette.distance_freq self (get_spin_direction (len l' + 1 + 1)))
            = false).
  { apply not_true_iff_false. intros E.
    destruct (get_spin_direction _); [apply Hcw in E|apply Hacw in E]; lia. }
  rewrite Hnonempty. cbv beta iota. rewrite ?Hs.
  destruct (list_getitem_last (l' ++ [x])) as [last_number Hlast];
    [by destruct l'|].
  rewrite Hlast. cbv beta iota.
  assert (Hlv : 0 <= last_number <= 36).
  { apply list_getitem_elem in Hlast. eapply Forall_forall in Hvalid; done. }
  destruct (index_on_wheel_valid last_number Hlv) as (last_index & -> & _).
  cbv beta iota.
  destruct (for_each_all_Ok
    (candidate (get_spin_direction (len l' + 1 + 1)) last_index
       (counter_total
          (roulette.distance_freq self (get_spin_direction (len l' + 1 + 1)))))
    (most_common n
       (roulette.distance_freq self (get_spin_direction (len l' + 1 + 1)))))
    as [results ->].
  { intros entry _. apply candidate_Ok_exact, counter_total_positive; [|done].
    by apply roulette_run_positive. }
  by eexists.
Qed.

Lemma roulette_prediction_available_witness :
  let self : roulette.RoulettePredictor Qc :=
    roulette.add_spins [0; 32; 15] roulette.__init__ in
  (len [0; 32; 15] = 0 ->
   returned (roulette.predict_next_top_n 15) self = Ok roulette.NoSpins) /\
  (len [0; 32; 15] = 1 ->
   returned (roulette.predict_next_top_n 15) self =
     Ok (roulette.NoDistanceData anticlockwise)) /\
  (len [0; 32; 15] = 2 ->
   returned (roulette.predict_next_top_n 15) self =
     Ok (roulette.NoDistanceData clockwise)) /\
  (3 <= len [0; 32; 15] ->
   exists results,
     returned (roulette.predict_next_top_n 15) self =
       Ok (roulette.Report (len [0; 32; 15] + 1)
             (get_spin_direction (len [0; 32; 15] + 1)) 15 results)).
Proof.
  apply (roulette_prediction_available [0; 32; 15] 15).
  repeat constructor; lia.
Defined.

(** ** The shape of a report *)

Lemma for_each_length {A B} (f : A -> result B) l l' :
  for_each f l = Ok l' -> length l' = length l.
Proof. intros Hl. apply for_each_Forall2, Forall2_length in Hl. lia. Qed.

Lemma most_common_le {W} `{Number W} {K} `{EqDecision K} k (c : Counter W K)
    (m : nat) :
  (Z.to_nat k <= m)%nat -> (length (most_common k c) <= m)%nat.
Proof.
  intros Hk. unfold most_common.
  pose proof (firstn_le_length (Z.to_nat k) (sort_by_count c)). lia.
Qed.

(** X12. Whenever [predict_next_top_n] of [testRou.py] returns a report, it is
    the report for the next spin (number [len(spins) + 1], in the direction
    of that number), with at most 10 hot numbers, one row per color of the
    color table, at most 5 hot zones, and a dealer section exactly when a
    dealer was named, with at most 5 rows. *)
Theorem report_shape {W : Type} `{Number W}
    (self : testRou.RoulettePredictor W) (n : Z) (dealer : option string)
    (r : testRou.PredictionReport W) :
  returned (testRou.predict_next_top_n n dealer) self = Ok (testRou.Report r) ->
  testRou.report_spin_number r = len (testRou.spins self) + 1 /\
  testRou.report_direction r =
    get_spin_direction (len (testRou.spins self) + 1) /\
  (length (testRou.hot_numbers r) <= 10)%nat /\
  length (testRou.hot_colors r) = length (testRou.color_weights self) /\
  (length (testRou.hot_zones r) <= 5)%nat /\
  match dealer, testRou.dealer_zones r with
  | Some name, Some (name', rows) => name' = name /\ (length rows <= 5)%nat
  | None, None => True
  | _, _ => False
  end.
Proof.
  unfold testRou.predict_next_top_n, testRou.dealer_zone_weights_getitem,
    testRou.with_probability.
  run_method. intros Hr.
  repeat case_match; cbn [fst] in *; simplify_eq;
    repeat match goal with
      | Hd : testRou.dealer_zones _ = _ |- _ => cbn in Hd; simplify_eq
      end;
    cbn [testRou.report_spin_number testRou.report_direction
         testRou.hot_numbers testRou.hot_colors testRou.hot_zones
         testRou.dealer_zones];
    repeat match goal with
      | Hf : for_each _ _ = Ok _ |- _ => apply for_each_length in Hf
      end;
    split_and!; try done;
    try match goal with
      | Hl : length ?a = length (most_common _ _) |- (length ?a <= _)%nat =>
          rewrite Hl; apply most_common_le; lia
      end;
    simpl in *; lia.
Qed.

Lemma report_shape_witness :
  testRou.report_spin_number report_0_32_15 =
    len (testRou.spins after_0_32_15) + 1 /\
  testRou.report_direction report_0_32_15 =
    get_spin_direction (len (testRou.spins after_0_32_15) + 1) /\
  (length (testRou.hot_numbers report_0_32_15) <= 10)%nat /\
  length (testRou.hot_colors report_0_32_15) =
    length (testRou.color_weights after_0_32_15) /\
  (length (testRou.hot_zones report_0_32_15) <= 5)%nat /\
  match @None string, testRou.dealer_zones report_0_32_15 with
  | Some name, Some (name', rows) => name' = name /\ (length rows <= 5)%nat
  | None, None => True
  | _, _ => False
  end.
Proof.
  apply (report_shape after_0_32_15 15 None report_0_32_15).
  vm_compute. reflexivity.
Defined.

(** X13. Asking for a dealer that has no table (or for the empty name) gives the
    report of the same call without a dealer, with an empty dealer section
    added ("No data for this dealer yet."). *)
Theorem unknown_dealer_report {W : Type} `{Number W}
    (self : testRou.RoulettePredictor W) (n : Z) (name : string)
    (r : testRou.PredictionReport W) :
  name = EmptyString \/ dict_mem name (testRou.dealer_zone_weights self) = false ->
  returned (testRou.predict_next_top_n n None) self = Ok (testRou.Report r) ->
  returned (testRou.predict_next_top_n n (Some name)) self =
    Ok (testRou.Report
          {| testRou.report_spin_number := testRou.report_spin_number r;
             testRou.report_direction := testRou.report_direction r;
             testRou.dist_predictions := testRou.dist_predictions r;
             testRou.hot_numbers := testRou.hot_numbers r;
             testRou.hot_colors := testRou.hot_colors r;
             testRou.hot_zones := testRou.hot_zones r;
             testRou.dealer_zones := Some (name, []) |}).
Proof.
  intros Hname.
  unfold testRou.predict_next_top_n, testRou.dealer_zone_weights_getitem,
    testRou.with_probability.
  run_method. unfold dealer_truthy.
  assert (Hknown :
    match (if decide (name = EmptyString) then None else Some name) with
    | Some name0 => dict_mem name0 (testRou.dealer_zone_weights self)
    | None => false
    end = false).
  { destruct (decide (name = EmptyString)); [done|]. by destruct Hname. }
  destruct (list_is_empty (testRou.spins self)); [done|].
  destruct (list_is_empty _); [done|].
  run_method. rewrite Hknown.
  intros Hr.
  repeat case_match; cbn [fst for_each] in *; simplify_eq; reflexivity.
Qed.

Lemma unknown_dealer_report_witness :
  returned (testRou.predict_next_top_n 15 (Some "bob"%string)) after_0_32_15 =
    Ok (testRou.Report
          {| testRou.report_spin_number := testRou.report_spin_number report_0_32_15;
             testRou.report_direction := testRou.report_direction report_0_32_15;
             testRou.dist_predictions := testRou.dist_predictions report_0_32_15;
             testRou.hot_numbers := testRou.hot_numbers report_0_32_15;
             testRou.hot_colors := testRou.hot_colors report_0_32_15;
             testRou.hot_zones := testRou.hot_zones report_0_32_15;
             testRou.dealer_zones := Some ("bob"%string, []) |}).
Proof.
  apply (unknown_dealer_report after_0_32_15 15 "bob"%string report_0_32_15).
  - right. vm_compute. reflexivity.
  - vm_compute. reflexivity.
Defined.

(** ** Totals as sums *)

Section Totals.
Local Open Scope Qc_scope.

Lemma fold_left_Qcplus_sum (l : list Qc) (acc : Qc) :
  fold_left Qcplus l acc = acc + sum_Qc l.
Proof.
  revert acc. induction l as [|w l IH]; intros acc; simpl.
  - by rewrite Qcplus_0_r.
  - rewrite IH. ring.
Qed.

Lemma counter_total_sum {K} (c : Counter Qc K) :
  counter_total c = sum_Qc (map snd c).
Proof.
  unfold counter_total, dict_values. rewrite fold_left_Qcplus_sum.
  cbn [of_int exact]. change (Q2Qc (inject_Z 0)) with 0. apply Qcplus_0_l.
Qed.
End Totals.

(** ** [roulette.py]: every spin after the first is counted once *)

Section RouletteObservations.
Import roulette.
Local Open Scope Qc_scope.

Lemma of_int_succ (z : Z) : of_int (z + 1)%Z = (of_int z : Qc) + 1.
Proof.
  cbn [of_int exact]. apply Qc_is_canon. simpl.
  rewrite !Qred_correct, inject_Z_plus. reflexivity.
Qed.

Lemma dict_set_sum {K} `{EqDecision K} (k : K) (v : Qc) (c : Counter Qc K) :
  sum_Qc (map snd (dict_set k v c)) =
    sum_Qc (map snd c) - counter_get k c + v.
Proof.
  unfold counter_get. cbn [of_int exact].
  change (Q2Qc (inject_Z 0)) with (Q2Qc 0).
  induction c as [|[k' w'] c IH]; simpl.
  - ring.
  - destruct (decide (k' = k)); simpl; [ring|]. rewrite IH.
    destruct (dict_lookup k c); ring.
Qed.

Lemma counter_incr_total {K} `{EqDecision K} (k : K) (c : Counter Qc K) :
  counter_total (counter_incr k c) = counter_total c + 1.
Proof.
  rewrite !counter_total_sum. unfold counter_incr. rewrite dict_set_sum.
  cbn [wadd of_int exact]. change (Q2Qc (inject_Z 1)) with (Q2Qc 1).
  unfold counter_get. cbn [of_int exact]. destruct (dict_lookup k c); ring.
Qed.
End RouletteObservations.

(** X15. [roulette.py] counts every spin after the first exactly once, in
    the table of its direction: after a run of [k] spins on wheel positions
    the anticlockwise counts add up to [k // 2] (the even spin numbers
    from 2 on) and the clockwise counts to [(k - 1) // 2] (the odd spin
    numbers from 3 on; 0 when there is no spin). *)
Theorem roulette_counts_observations (l : list Z) :
  valid_numbers l ->
  let self : roulette.RoulettePredictor Qc :=
    roulette.add_spins l roulette.__init__ in
  roulette.spins self = l /\
  counter_total (roulette.distance_freq self anticlockwise) =
    of_int (len l / 2) /\
  counter_total (roulette.distance_freq self clockwise) =
    of_int (Z.max 0 ((len l - 1) / 2)).
Proof.
  induction l as [|number l IH] using rev_ind; intros Hvalid self.
  - subst self. by vm_compute.
  - apply Forall_app in Hvalid as [Hl Hx]. apply Forall_inv in Hx.
    destruct (IH Hl) as (Hs & Hacw & Hcw). subst self.
    rewrite roulette_add_spins_snoc, roulette_add_spin_after.
    unfold roulette_after_add_spin. rewrite Hs.
    cbn [roulette.spins roulette.distance_freq
         roulette.distance_freq_clockwise
         roulette.distance_freq_anticlockwise] in *.
    split; [done|]. rewrite len_snoc.
    unfold roulette_distance_update.
    destruct l as [|prev l'] using rev_ind.
    { cbn [last roulette_distances_after]. rewrite Hacw, Hcw. by vm_compute. }
    clear IHl'. rewrite last_snoc. rewrite len_snoc in *.
    pose proof (len_nonneg l') as Hlen'.
    apply Forall_app in Hl as [_ Hprev]. apply Forall_inv in Hprev.
    destruct (distance_in_valid (get_spin_direction (len l' + 1 + 1)) prev number)
      as (dist & -> & _); [done..|].
    cbn [result_bind]. unfold roulette_distances_after.
    destruct (get_spin_direction_cases (len l' + 1 + 1)) as [[-> Hodd]|[-> Heven]].
    + rewrite decide_False by done. rewrite decide_True by done.
      rewrite counter_incr_total, Hacw, Hcw, <- of_int_succ.
      split; f_equal; Z.div_mod_to_equations; lia.
    + rewrite decide_True by done. rewrite decide_False by done.
      rewrite counter_incr_total, Hacw, Hcw, <- of_int_succ.
      split; f_equal; Z.div_mod_to_equations; lia.
Qed.

Lemma roulette_counts_observations_witness :
  let self : roulette.RoulettePredictor Qc :=
    roulette.add_spins [0; 32; 15; 19; 4] roulette.__init__ in
  roulette.spins self = [0; 32; 15; 19; 4] /\
  counter_total (roulette.distance_freq self anticlockwise) = of_int 2 /\
  counter_total (roulette.distance_freq self clockwise) = of_int 2.
Proof.
  apply (roulette_counts_observations [0; 32; 15; 19; 4]).
  repeat constructor; lia.
Defined.
(** ** The ranking of a report *)

Section Ranking.
Local Open Scope Qc_scope.







End Ranking.


